(** * Authentication controller of the expense tracker

    A shallow embedding of [backend/src/controllers/auth.controllers.ts]:
    the request handlers [signup], [verifyEmail], [login], [setup2FA],
    [verify2FA], [confirm2FA], [disable2FA], [logout] and the [protect]
    gate, as functions from the stored users, the clock and the request to
    the new store and the response.

    The libraries the controller calls are modelled by their interface:
    - [jsonwebtoken]: a token is its claims together with a symbolic HS256
      signature (the key and the claims the signature was computed over);
    - [zod]: a schema is a function from a JSON value to the parsed fields
      or a [ZodError];
    - [mongoose]: the collection is a finite map from [_id] to the stored
      user, a query result is a document holding the selected paths,
      [save] writes the paths assigned since the document was loaded, a
      query by an id that does not cast to an [_id] throws, and every
      write persisted is recorded;
    - [bcrypt] and [speakeasy]: section variables.
    The connection to the database and the mail transport are modelled on
    their success path, and the environment variables as a configuration
    record already parsed. *)

From stdpp Require Import base option strings list gmap.
From Stdlib Require Import ZArith Ascii.

Set Warnings "-register-all".
Local Open Scope Z_scope.

(** ** JavaScript values *)

(** Claims of a token: [{id, iat, exp}], times in seconds. *)
Record Claims := mkClaims {
  c_id : option string;
  c_iat : Z;
  c_exp : option Z
}.

(** A compact JWT: the claims it carries and its HS256 signature, kept
    symbolically as the key and the claims that were signed.  A token whose
    payload was edited after signing has [jwt_claims <> sig_claims]; a
    forged signature has a [sig_key] that is not the server's. *)
Record Jwt := mkJwt {
  jwt_claims : Claims;
  sig_key : string;
  sig_claims : Claims
}.

(** A JavaScript string: plain text, or the compact serialisation of a
    token. *)
Inductive Str :=
| Plain (s : string)
| Compact (j : Jwt).

Inductive Json :=
| JUndefined
| JBool (b : bool)
| JNum (n : Z)
| JStr (s : Str)
| JArr (items : list Json)
| JObj (fields : list (string * Json)).

#[global] Instance Claims_eq_dec : EqDecision Claims.
Proof. solve_decision. Defined.
#[global] Instance Jwt_eq_dec : EqDecision Jwt.
Proof. solve_decision. Defined.
#[global] Instance Str_eq_dec : EqDecision Str.
Proof. solve_decision. Defined.

Definition jtext (s : string) : Json := JStr (Plain s).

(** Property access [o.k]: [undefined] on a missing key or a non-object.
    The first binding wins, an object literal having each key once. *)
Fixpoint assoc (k : string) (fields : list (string * Json)) : option Json :=
  match fields with
  | [] => None
  | (k', v) :: rest => if decide (k = k') then Some v else assoc k rest
  end.

Definition field (k : string) (o : Json) : option Json :=
  match o with
  | JObj fields => assoc k fields
  | _ => None
  end.

(** [!s] on a string: only the empty string is falsy. *)
Definition str_truthy (s : Str) : bool :=
  match s with
  | Plain s => negb (bool_decide (s = ""))
  | Compact _ => true
  end.

(** [!x] on an optional string ([undefined] is falsy). *)
Definition truthy (o : option string) : bool :=
  match o with
  | Some s => negb (bool_decide (s = ""))
  | None => false
  end.

(** [a + b] where [b] may be [undefined]: string concatenation converts
    [undefined] to the text ["undefined"]. *)
Definition js_concat (a : string) (b : option string) : string :=
  a +:+ default "undefined" b.

(** ** Exceptions *)

Inductive Exn :=
| ZodError (issues : list string)
| JsonWebTokenError (msg : string)
| TokenExpiredError
| CastError (value path : string)
| Error (msg : string).

#[global] Instance exn_ret : MRet (sum Exn) := λ A a, inr a.
#[global] Instance exn_bind : MBind (sum Exn) := λ A B f m,
  match m with
  | inl e => inl e
  | inr a => f a
  end.

Definition throw {A} (e : Exn) : Exn + A := inl e.

(** ** jsonwebtoken *)

Module jwt.

(** [jwt.sign({id}, key, {expiresIn})] at clock [now] (milliseconds):
    [iat] is the clock in seconds, [exp = iat + expiresIn].  Signing
    refuses an empty key. *)
Definition sign (id : string) (key : string) (expiresIn : Z) (now : Z)
  : Exn + Str :=
  if decide (key = "") then throw (Error "secretOrPrivateKey must have a value")
  else
    let c := mkClaims (Some id) (now `div` 1000) (Some (now `div` 1000 + expiresIn)) in
    mret (Compact (mkJwt c key c)).

(** [jwt.verify(token, key)]: the token must be a well-formed JWT, the
    signature must be the key's over the claims carried, and the clock
    must be before [exp]. *)
Definition verify (token : option Json) (key : string) (now : Z)
  : Exn + Claims :=
  match token with
  | Some (JStr (Compact j)) =>
      if decide (key = "") then
        throw (JsonWebTokenError "secret or public key must be provided")
      else if negb (bool_decide (sig_key j = key ∧ sig_claims j = jwt_claims j)) then
        throw (JsonWebTokenError "invalid signature")
      else
        match c_exp (jwt_claims j) with
        | Some exp =>
            if bool_decide (exp ≤ now `div` 1000) then throw TokenExpiredError
            else mret (jwt_claims j)
        | None => mret (jwt_claims j)
        end
  | Some (JStr (Plain _)) => throw (JsonWebTokenError "jwt malformed")
  | Some _ => throw (JsonWebTokenError "jwt must be a string")
  | None => throw (JsonWebTokenError "jwt must be provided")
  end.

(** [jwt.decode(token)]: the claims, with no check at all; [null] when the
    string is not a JWT. *)
Definition decode (token : Str) : option Claims :=
  match token with
  | Compact j => Some (jwt_claims j)
  | Plain _ => None
  end.

End jwt.

(** ** The user collection (mongoose) *)

(** What the collection stores for a user; the map key is the [_id]. *)
Record User := mkUser {
  u_name : string;
  u_email : string;
  u_password : string;
  u_isEmailVerified : bool;
  u_role : string;
  u_twoFactorEnabled : bool;
  u_twoFactorSecret : option string
}.

Abbreviation DB := (gmap string User).

Inductive Path :=
| path_password
| path_isEmailVerified
| path_twoFactorEnabled
| path_twoFactorSecret.

#[global] Instance Path_eq_dec : EqDecision Path.
Proof. solve_decision. Defined.

(** What the controller's queries depend on in a schema: the two paths it
    may exclude from query results ([select: false]; [true] means the path
    is returned by a query with no projection), the strings that cast to an
    [_id], and the setter of the [email] path. *)
Record Schema := mkSchema {
  select_password : bool;
  select_twoFactorSecret : bool;
  valid_id : string → bool;
  email_setter : string → string
}.

(** The text of an [ObjectId]: 24 hexadecimal digits. *)
Definition isObjectId (s : string) : bool :=
  bool_decide (String.length s = 24%nat)
  && forallb (λ a, bool_decide (a ∈ String.list_ascii_of_string "0123456789abcdefABCDEF"))
             (String.list_ascii_of_string s).

(** [s.toLowerCase()], on the letters [A] to [Z]. *)
Definition lower (a : ascii) : ascii :=
  let n := nat_of_ascii a in
  if bool_decide (65 ≤ n ≤ 90)%nat then ascii_of_nat (n + 32) else a.

Fixpoint toLowerCase (s : string) : string :=
  match s with
  | EmptyString => EmptyString
  | String a rest => String (lower a) (toLowerCase rest)
  end.

(** Modelled from the spec: the user schema of [models/user.models], which is
    not in the sources.  The data model says of [password] that it is never
    serialized in default reads and of [twoFactorSecret] that it is excluded
    from default reads; the controller agrees, asking for them with
    [.select('+password')] and [.select('+twoFactorSecret')].  The [_id] is
    mongoose's default, an [ObjectId], and the data model says of [email]
    that it is lowercased. *)
Definition userSchema : Schema := mkSchema false false isObjectId toLowerCase.

(** The projection of a query: none, or [.select('+path')]. *)
Inductive Select := default_select | select_plus (p : Path).

#[global] Instance Select_eq_dec : EqDecision Select.
Proof. solve_decision. Defined.

(** A loaded document: the selected paths of a stored user, and the paths
    assigned since it was loaded. *)
Record Doc := mkDoc {
  d_id : string;
  d_name : string;
  d_email : string;
  d_password : option string;
  d_isEmailVerified : bool;
  d_role : string;
  d_twoFactorEnabled : bool;
  d_twoFactorSecret : option string;
  d_modified : list Path
}.

Definition set_isEmailVerified (v : bool) (d : Doc) : Doc :=
  mkDoc (d_id d) (d_name d) (d_email d) (d_password d) v (d_role d)
        (d_twoFactorEnabled d) (d_twoFactorSecret d) (path_isEmailVerified :: d_modified d).

Definition set_twoFactorEnabled (v : bool) (d : Doc) : Doc :=
  mkDoc (d_id d) (d_name d) (d_email d) (d_password d) (d_isEmailVerified d) (d_role d)
        v (d_twoFactorSecret d) (path_twoFactorEnabled :: d_modified d).

Definition set_twoFactorSecret (v : option string) (d : Doc) : Doc :=
  mkDoc (d_id d) (d_name d) (d_email d) (d_password d) (d_isEmailVerified d) (d_role d)
        (d_twoFactorEnabled d) v (path_twoFactorSecret :: d_modified d).

(** [save] writes one assigned path of the document to the stored user; an
    assigned [undefined] unsets the path. *)
Definition write (d : Doc) (p : Path) (u : User) : User :=
  match p with
  | path_password =>
      mkUser (u_name u) (u_email u) (default (u_password u) (d_password d))
             (u_isEmailVerified u) (u_role u) (u_twoFactorEnabled u) (u_twoFactorSecret u)
  | path_isEmailVerified =>
      mkUser (u_name u) (u_email u) (u_password u)
             (d_isEmailVerified d) (u_role u) (u_twoFactorEnabled u) (u_twoFactorSecret u)
  | path_twoFactorEnabled =>
      mkUser (u_name u) (u_email u) (u_password u)
             (u_isEmailVerified u) (u_role u) (d_twoFactorEnabled d) (u_twoFactorSecret u)
  | path_twoFactorSecret =>
      mkUser (u_name u) (u_email u) (u_password u)
             (u_isEmailVerified u) (u_role u) (u_twoFactorEnabled u) (d_twoFactorSecret d)
  end.

Definition save (db : DB) (d : Doc) : DB :=
  alter (λ u, foldr (write d) u (d_modified d)) (d_id d) db.

Section Query.
Variable schema : Schema.

Definition selected (sel : Select) (p : Path) : bool :=
  match p with
  | path_password => select_password schema || bool_decide (sel = select_plus path_password)
  | path_twoFactorSecret =>
      select_twoFactorSecret schema || bool_decide (sel = select_plus path_twoFactorSecret)
  | _ => true
  end.

Definition load (sel : Select) (id : string) (u : User) : Doc :=
  mkDoc id (u_name u) (u_email u)
        (if selected sel path_password then Some (u_password u) else None)
        (u_isEmailVerified u) (u_role u) (u_twoFactorEnabled u)
        (if selected sel path_twoFactorSecret then u_twoFactorSecret u else None)
        [].

(** [User.findById(id).select(sel)].  An [undefined] id finds nothing.
    The keys of the collection are [_id]s, so the id of a stored user casts
    and finds the user; an id that is not stored finds nothing when it
    casts to an [_id], and otherwise makes the query throw a [CastError]. *)
Definition findById (db : DB) (id : option string) (sel : Select) : Exn + option Doc :=
  match id with
  | None => mret None
  | Some i =>
      match db !! i with
      | Some u => mret (Some (load sel i u))
      | None => if valid_id schema i then mret None else throw (CastError i "_id")
      end
  end.

(** [User.findOne({email}).select(sel)]. *)
Definition findOne (db : DB) (email : string) (sel : Select) : option Doc :=
  '(i, u) ← snd <$> list_find (λ iu, u_email iu.2 = email) (map_to_list db);
  Some (load sel i u).
End Query.

(** ** Configuration, responses and effects *)

(** [JWT_SECRET] (the empty string when unset), [JWT_EXPIRES_IN] in seconds,
    [FRONTEND_URL], [COOKIE_EXPIRES_IN] in days, [NODE_ENV]. *)
Record Config := mkConfig {
  jwt_secret : string;
  jwt_expiresIn : Z;
  frontend_url : string;
  COOKIE_EXPIRES_IN : Z;
  NODE_ENV : string
}.

Record Response := mkResponse {
  status : Z;
  body : Json
}.

Record Cookie := mkCookie {
  ck_name : string;
  ck_value : Str;
  ck_expires : Z;
  ck_httpOnly : bool;
  ck_secure : bool
}.

(** A mail handed to [SendEmail]; the html is a template string, kept as
    its fragments. *)
Record Email := mkEmail {
  em_email : string;
  em_subject : string;
  em_html : list Str
}.

(** ** The handler monad *)

(** What a handler has done so far: the store, the response sent, the
    cookies set, the mails sent, for a middleware the [req.user] it called
    [next()] with, and the writes persisted, as the store each write left,
    in order. *)
Record World := mkWritten {
  w_db : DB;
  w_res : option Response;
  w_cookies : list Cookie;
  w_mail : list Email;
  w_next : option Doc;
  w_writes : list DB
}.

(** A world in which nothing was written. *)
Abbreviation mkWorld db res cookies mail next := (mkWritten db res cookies mail next []).

(** A handler step changes the world and returns or throws; what was done
    before a throw stays done. *)
Definition M (A : Type) : Type := World → World * (Exn + A).

#[global] Instance M_ret : MRet M := λ A a w, (w, inr a).
#[global] Instance M_bind : MBind M := λ A B f m w,
  match m w with
  | (w', inr a) => f a w'
  | (w', inl e) => (w', inl e)
  end.

Definition lift {A} (r : Exn + A) : M A := λ w, (w, r).

(** [try { m } catch (error) { h error }] *)
Definition try_catch (m : M ()) (h : Exn → M ()) : M () := λ w,
  match m w with
  | (w', inl e) => h e w'
  | r => r
  end.

(** [res.status(code).json(b)] *)
Definition res_json (code : Z) (b : Json) : M () := λ w,
  (mkWritten (w_db w) (Some (mkResponse code b)) (w_cookies w) (w_mail w) (w_next w)
             (w_writes w), inr ()).

(** [res.cookie(name, value, options)] *)
Definition res_cookie (c : Cookie) : M () := λ w,
  (mkWritten (w_db w) (w_res w) (w_cookies w ++ [c]) (w_mail w) (w_next w)
             (w_writes w), inr ()).

Definition SendEmail (m : Email) : M () := λ w,
  (mkWritten (w_db w) (w_res w) (w_cookies w) (w_mail w ++ [m]) (w_next w)
             (w_writes w), inr ()).

(** [req.user = user; next()] *)
Definition next (user : Doc) : M () := λ w,
  (mkWritten (w_db w) (w_res w) (w_cookies w) (w_mail w) (Some user)
             (w_writes w), inr ()).

(** A write that leaves the store [db]. *)
Definition persist (db : DB) (w : World) : World :=
  mkWritten db (w_res w) (w_cookies w) (w_mail w) (w_next w) (w_writes w ++ [db]).

(** [await user.save()] *)
Definition user_save (d : Doc) : M () := λ w, (persist (save (w_db w) d) w, inr ()).

(** A request starts with nothing sent and nothing written. *)
Definition start (db : DB) : World := mkWorld db None [] [] None.

Definition run (h : M ()) (db : DB) : World := (h (start db)).1.

Definition dquote : string := String (ascii_of_nat 34) EmptyString.

(** [error] in a response body: [JSON.stringify] keeps the own enumerable
    properties, of which a [TypeError] has none and mongoose's [CastError]
    these. *)
Definition error_json (e : Exn) : Json :=
  match e with
  | CastError value path =>
      JObj [("stringValue", jtext (dquote +:+ value +:+ dquote));
            ("valueType", jtext "string"); ("kind", jtext "ObjectId");
            ("value", jtext value); ("path", jtext path); ("reason", JObj [])]
  | _ => JObj []
  end.

(** ** The controller *)

Section Controller.

(** The user schema (see [userSchema]). *)
Variable schema : Schema.
(** The environment. *)
Variable cfg : Config.
(** The text of a compact token, for the places that read a string that
    happens to be a token as plain text. *)
Variable compact : Jwt → string.
(** zod's [.email()] test. *)
Variable isEmail : string → bool.
(** Modelled from the spec: the hash under which the user model, which is
    not in the sources, stores a password (a one-way hash). *)
Variable hashPassword : string → string.
(** [bcrypt.compare(candidate, hash)] *)
Variable bcrypt_compare : string → string → bool.
(** Modelled from the spec: the role a new user gets from the user model. *)
Variable default_role : string.
(** [speakeasy.totp.verify({secret, encoding: 'base32', token, window: 1})]
    at a given clock. *)
Variable totp_verify : string → Json → Z → bool.

Definition text (s : Str) : string :=
  match s with
  | Plain s => s
  | Compact j => compact j
  end.

(** *** zod schemas *)

(** [z.string()] with a refinement, on a possibly missing value. *)
Definition z_string (check : string → bool) (v : option Json) : option Str :=
  match v with
  | Some (JStr s) => if check (text s) then Some s else None
  | _ => None
  end.

Definition z_any (s : string) : bool := true.
Definition z_min (n : nat) (s : string) : bool := bool_decide (n ≤ String.length s)%nat.
Definition z_length (n : nat) (s : string) : bool := bool_decide (String.length s = n).

(** The issue a field contributes to a [ZodError]: its path when it did
    not parse. *)
Definition issue {A} (path : string) (o : option A) : list string :=
  match o with
  | Some _ => []
  | None => [path]
  end.

Definition signupSchema (v : Json) : Exn + (string * string * string) :=
  match v with
  | JObj _ =>
      let name := z_string (z_min 2) (field "name" v) in
      let email := z_string isEmail (field "email" v) in
      let password := z_string (z_min 8) (field "password" v) in
      match name, email, password with
      | Some n, Some e, Some p => mret (text n, text e, text p)
      | _, _, _ =>
          throw (ZodError (issue "name" name ++ issue "email" email
                           ++ issue "password" password))
      end
  | _ => throw (ZodError [""])
  end.

Definition loginSchema (v : Json) : Exn + (string * string) :=
  match v with
  | JObj _ =>
      let email := z_string isEmail (field "email" v) in
      let password := z_string (z_min 8) (field "password" v) in
      match email, password with
      | Some e, Some p => mret (text e, text p)
      | _, _ => throw (ZodError (issue "email" email ++ issue "password" password))
      end
  | _ => throw (ZodError [""])
  end.

Definition verifyEmailSchema (v : Json) : Exn + Str :=
  match v with
  | JObj _ =>
      let token := z_string z_any (field "token" v) in
      match token with
      | Some t => mret t
      | None => throw (ZodError (issue "token" token))
      end
  | _ => throw (ZodError [""])
  end.

Definition enable2FASchema (v : Json) : Exn + (Str * string) :=
  match v with
  | JObj _ =>
      let token := z_string z_any (field "token" v) in
      let code := z_string (z_length 6) (field "code" v) in
      match token, code with
      | Some t, Some c => mret (t, text c)
      | _, _ => throw (ZodError (issue "token" token ++ issue "code" code))
      end
  | _ => throw (ZodError [""])
  end.

(** [error.errors] in a response body. *)
Definition errors (issues : list string) : Json := JArr (jtext <$> issues).

(** *** Queries, as handler steps *)

Definition User_findById (id : option string) (sel : Select) : M (option Doc) :=
  λ w, (w, findById schema (w_db w) id sel).

Definition User_findOne (email : string) (sel : Select) : M (option Doc) :=
  λ w, (w, inr (findOne schema (w_db w) email sel)).

(** Modelled from the spec: [User.create({name, email, password})] of the
    user model, which is not in the sources: the user is stored under a
    new id with the email as the schema's setter leaves it (the data model
    has it lowercased), the password hashed, unverified and with 2FA off;
    the document returned holds every path.  An id already taken, or an
    email already stored (the data model has it unique), is a duplicate-key
    error. *)
Definition User_create (newId name email password : string) : M Doc := λ w,
  let email := email_setter schema email in
  match w_db w !! newId, findOne schema (w_db w) email default_select with
  | None, None =>
      let u := mkUser name email (hashPassword password) false default_role false None in
      (persist (<[newId := u]> (w_db w)) w,
       inr (mkDoc newId name email (Some (hashPassword password)) false default_role
                  false None []))
  | _, _ => (w, inl (Error "E11000 duplicate key error"))
  end.

(** Modelled from the spec: [user.comparePassword(candidate)], a method of
    the user model, which is not in the sources: whether the candidate
    matches the stored one-way hash, that is bcrypt's comparison with the
    document's hash, which throws when the document was loaded without it. *)
Definition comparePassword (user : Doc) (candidate : string) : M bool :=
  match d_password user with
  | Some hash => mret (bcrypt_compare candidate hash)
  | None => lift (throw (Error "data and hash arguments required"))
  end.

(** *** Handlers *)

Definition signToken (id : string) (now : Z) : Exn + Str :=
  jwt.sign id (jwt_secret cfg) (jwt_expiresIn cfg) now.

(** The options of the session cookie. *)
Definition session_cookie (token : Str) (now : Z) : Cookie :=
  mkCookie "jwt" token (now + COOKIE_EXPIRES_IN cfg * 24 * 60 * 60 * 1000) true
           (bool_decide (NODE_ENV cfg = "production")).

Definition public_user (user : Doc) : Json :=
  JObj [("id", jtext (d_id user)); ("name", jtext (d_name user));
        ("email", jtext (d_email user)); ("role", jtext (d_role user))].

(** [newId] is the id the store gives the new document. *)
Definition signup (req_body : Json) (newId : string) (now : Z) : M () :=
  try_catch
    ('(name, email, password) ← lift (signupSchema req_body);
     userExists ← User_findOne email default_select;
     match userExists with
     | Some _ =>
         res_json 400 (JObj [("success", JBool false);
                             ("message", jtext "Email is already registered")])
     | None =>
         newUser ← User_create newId name email password;
         verificationToken ←
           lift (jwt.sign (d_id newUser)
                          (js_concat (jwt_secret cfg) (d_password newUser)) 86400 now);
         let verificationUrl :=
           [Plain (frontend_url cfg); Plain "/verify-email?token="; verificationToken] in
         SendEmail (mkEmail (d_email newUser) "Verify Your Email"
                      ([Plain "Please click <a href="; Plain dquote] ++ verificationUrl
                       ++ [Plain dquote; Plain "> here</a> to verify your email"]));;
         res_json 201 (JObj [("status", jtext "sucess");
                             ("message", jtext "Verification email sent")])
     end)
    (λ error,
       match error with
       | ZodError issues =>
           res_json 400 (JObj [("status", jtext "failed"); ("message", errors issues)])
       | _ => res_json 500 (JObj [("message", jtext "Something went wrong")])
       end).

Definition verifyEmail (req_query : Json) (now : Z) : M () :=
  try_catch
    (token ← lift (verifyEmailSchema req_query);
     let decodeToken := jwt.decode token in
     if negb (truthy (decodeToken ≫= c_id)) then
       res_json 400 (JObj [("message", jtext "Inavlid token")])
     else
       user ← User_findById (decodeToken ≫= c_id) default_select;
       match user with
       | None => res_json 400 (JObj [("message", jtext "User with token not found")])
       | Some user =>
           lift (jwt.verify (Some (JStr token))
                            (js_concat (jwt_secret cfg) (d_password user)) now);;
           if d_isEmailVerified user then
             res_json 400 (JObj [("message", jtext "Email is already verified")])
           else
             let user := set_isEmailVerified true user in
             user_save user;;
             res_json 200 (JObj [("status", jtext "success");
                                 ("message", jtext "Email verified successfully")])
       end)
    (λ error,
       res_json 400 (JObj [("status", jtext "Failed");
                           ("message", jtext "Token is invalid, or token is expired")])).

Definition login (req_body : Json) (now : Z) : M () :=
  try_catch
    ('(email, password) ← lift (loginSchema req_body);
     user ← User_findOne email (select_plus path_password);
     invalid ← match user with
               | None => mret true
               | Some user => ok ← comparePassword user password; mret (negb ok)
               end;
     match invalid, user with
     | false, Some user =>
         if negb (d_isEmailVerified user) then
           res_json 401 (JObj [("message", jtext "Please verify your email to login")])
         else if d_twoFactorEnabled user then
           tempToken ← lift (jwt.sign (d_id user) (jwt_secret cfg) 300 now);
           res_json 200 (JObj [("message", jtext "2FA required");
                               ("tempToken", JStr tempToken);
                               ("twoFactorEnabled", JBool true)])
         else
           token ← lift (signToken (d_id user) now);
           res_cookie (session_cookie token now);;
           res_json 200 (JObj [("status", jtext "success");
                               ("message", jtext "Login successfull");
                               ("token", JStr token);
                               ("user", public_user user)])
     | _, _ =>
         res_json 401 (JObj [("status", jtext "failed");
                             ("message", jtext "Invalid email or password")])
     end)
    (λ error,
       match error with
       | ZodError issues =>
           res_json 400 (JObj [("message", jtext "Validation failed");
                               ("errors", errors issues)])
       | _ => res_json 500 (JObj [("message", jtext "Something went wrong")])
       end).

(** [req.user.id], a [TypeError] when no gate has set [req.user]. *)
Definition req_user_id (req_user : option Doc) : Exn + string :=
  match req_user with
  | Some user => mret (d_id user)
  | None => throw (Error "TypeError: Cannot read properties of undefined")
  end.

(** [base32] and [otpauth_url] are the fields of the secret that
    [speakeasy.generateSecret] drew. *)
Definition setup2FA (req_user : option Doc) (base32 otpauth_url : string) : M () :=
  try_catch
    (userId ← lift (req_user_id req_user);
     user ← User_findById (Some userId) default_select;
     match user with
     | None => res_json 404 (JObj [("message", jtext "User not found")])
     | Some user =>
         if d_twoFactorEnabled user then
           res_json 400 (JObj [("message", jtext "2FA already enabled")])
         else
           let user := set_twoFactorSecret (Some base32) user in
           user_save user;;
           res_json 200 (JObj [("secret", jtext base32);
                               ("otpauthURL", jtext otpauth_url)])
     end)
    (λ error, res_json 500 (JObj [("message", jtext "Something went wrong")])).

(** [!user || !user.twoFactorSecret] *)
Definition no_secret (user : option Doc) : bool :=
  match user with
  | Some user => negb (truthy (d_twoFactorSecret user))
  | None => true
  end.

(** [const {tempToken, code} = req.body] *)
Definition verify2FA_body (req_body : Json) : Exn + (option Json * option Json) :=
  match req_body with
  | JUndefined => throw (Error "TypeError: Cannot destructure property of undefined")
  | _ => mret (field "tempToken" req_body, field "code" req_body)
  end.

Definition verify2FA (req_body : Json) (now : Z) : M () :=
  try_catch
    ('(tempToken, code) ← lift (verify2FA_body req_body);
     decoded ← lift (jwt.verify tempToken (jwt_secret cfg) now);
     user ← User_findById (c_id decoded) (select_plus path_twoFactorSecret);
     match no_secret user, user with
     | false, Some user =>
         let verified :=
           totp_verify (default "" (d_twoFactorSecret user)) (default JUndefined code) now in
         if negb verified then
           res_json 401 (JObj [("message", jtext "Invalid 2fA code")])
         else
           token ← lift (signToken (d_id user) now);
           res_cookie (session_cookie token now);;
           res_json 200 (JObj [("status", jtext "success");
                               ("token", JStr token);
                               ("user", public_user user)])
     | _, _ =>
         res_json 400 (JObj [("status", jtext "failed");
                             ("message", jtext "Invalid token")])
     end)
    (λ error, res_json 401 (JObj [("message", jtext "Invalid or expired token")])).

Definition confirm2FA (req_user : option Doc) (req_body : Json) (now : Z) : M () :=
  try_catch
    ('(_, code) ← lift (enable2FASchema req_body);
     userId ← lift (req_user_id req_user);
     user ← User_findById (Some userId) (select_plus path_twoFactorSecret);
     match no_secret user, user with
     | false, Some user =>
         let verified :=
           totp_verify (default "" (d_twoFactorSecret user)) (jtext code) now in
         if negb verified then
           res_json 401 (JObj [("message", jtext "invalid 2FA code")])
         else
           let user := set_twoFactorEnabled true user in
           user_save user;;
           res_json 200 (JObj [("message", jtext "2FA Enabled successfully")])
     | _, _ =>
         res_json 404 (JObj [("messaage", jtext "User not found or 2FA not setup")])
     end)
    (λ error,
       match error with
       | ZodError issues =>
           res_json 400 (JObj [("message", jtext "Validation failed");
                               ("errors", errors issues)])
       | _ => res_json 500 (JObj [("message", jtext "Something went wrong")])
       end).

Definition disable2FA (req_user : option Doc) : M () :=
  try_catch
    (userId ← lift (req_user_id req_user);
     user ← User_findById (Some userId) default_select;
     match user with
     | None => res_json 404 (JObj [("message", jtext "User not found")])
     | Some user =>
         if negb (d_twoFactorEnabled user) then
           res_json 400 (JObj [("message", jtext "2FA not enabled")])
         else
           let user := set_twoFactorEnabled false user in
           let user := set_twoFactorSecret None user in
           user_save user;;
           res_json 200 (JObj [("message", jtext "2FA disabled successfully")])
     end)
    (λ error, res_json 500 (JObj [("message", jtext "Something went wrong");
                                  ("error", error_json error)])).

Definition logout : M () :=
  try_catch
    (res_cookie (mkCookie "jwt" (Plain "") 0 true false);;
     res_json 200 (JObj [("status", jtext "success");
                         ("message", jtext "Logged out successfully")]))
    (λ error, res_json 500 (JObj [("message", jtext "Error Logging out");
                                  ("error", error_json error)])).

(** The token a request carries.  [authorization] is the Authorization
    header split at spaces, [cookies_jwt] the [jwt] cookie. *)
Definition request_token (authorization : option (list Str)) (cookies_jwt : option Str)
  : option Str :=
  let bearer :=
    match authorization with
    | Some (first :: _) => String.prefix "Bearer" (text first)
    | _ => false
    end in
  if bearer then (authorization ≫= λ pieces, pieces !! 1%nat)
  else
    match cookies_jwt with
    | Some c => if str_truthy c then Some c else None
    | None => None
    end.

Definition protect (authorization : option (list Str)) (cookies_jwt : option Str)
    (now : Z) : M () :=
  try_catch
    (let token := request_token authorization cookies_jwt in
     if negb (from_option str_truthy false token) then
       res_json 401 (JObj [("message",
                            jtext "You are not logged in!, Please log in to get access")])
     else
       decoded ← lift (jwt.verify (JStr <$> token) (jwt_secret cfg) now);
       currentUser ← User_findById (c_id decoded) default_select;
       match currentUser with
       | None => res_json 401 (JObj [("message", jtext "User does no longer exist")])
       | Some currentUser => next currentUser
       end)
    (λ error, res_json 401 (JObj [("message", jtext "Invalid token")])).

(** [restrictTo(...roles)], the middleware it returns: it has no [try], so
    a request that no gate gave a [req.user] makes it throw. *)
Definition restrictTo (roles : list string) (req_user : option Doc) : M () :=
  match req_user with
  | Some user =>
      if negb (bool_decide (d_role user ∈ roles)) then
        res_json 403 (JObj [("message",
                             jtext "You do not have permission to perform this action")])
      else next user
  | None => lift (throw (Error "TypeError: Cannot read properties of undefined"))
  end.

(** *** Responses, requests and the predicates of the properties *)

(** The claims [jwt.sign] puts in a token. *)
Definition issued (id : string) (expiresIn now : Z) : Claims :=
  mkClaims (Some id) (now `div` 1000) (Some (now `div` 1000 + expiresIn)).

(** The response to bad credentials. *)
Definition InvalidCredentials : Response :=
  mkResponse 401 (JObj [("status", jtext "failed");
                        ("message", jtext "Invalid email or password")]).

(** The token in the link of a verification mail. *)
Definition verification_token (m : Email) : option Str := em_html m !! 4%nat.

(** The user [User.create] stores. *)
Definition created (name email pw : string) : User :=
  mkUser name email (hashPassword pw) false default_role false None.

(** The failure response of [verifyEmail]'s catch block. *)
Definition InvalidVerificationToken : Response :=
  mkResponse 400 (JObj [("status", jtext "Failed");
                        ("message", jtext "Token is invalid, or token is expired")]).

Definition AlreadyVerified : Response :=
  mkResponse 400 (JObj [("message", jtext "Email is already verified")]).

Definition EmailVerified : Response :=
  mkResponse 200 (JObj [("status", jtext "success");
                        ("message", jtext "Email verified successfully")]).

(** The requests the gate must turn away: no token, an expired token, a
    string that is no token, a token whose signature is not the secret's
    over its claims, and a token naming a user the store no longer has. *)
Inductive Unacceptable (db : DB) (now : Z) : option Str → Prop :=
| no_token :
    Unacceptable db now None
| expired_token j exp :
    c_exp (jwt_claims j) = Some exp → exp ≤ now `div` 1000 →
    Unacceptable db now (Some (Compact j))
| malformed_token s :
    Unacceptable db now (Some (Plain s))
| invalid_signature j :
    ¬ (sig_key j = jwt_secret cfg ∧ sig_claims j = jwt_claims j) →
    Unacceptable db now (Some (Compact j))
| user_deleted j i :
    c_id (jwt_claims j) = Some i → db !! i = None →
    Unacceptable db now (Some (Compact j)).

(** The session token [signToken] issues, for a configured secret. *)
Definition session_token (i : string) (now : Z) : Str :=
  Compact (mkJwt (issued i (jwt_expiresIn cfg) now) (jwt_secret cfg)
                 (issued i (jwt_expiresIn cfg) now)).

(** The response and the cookie that open a session. *)
Definition SessionOpened (i : string) (u : User) (now : Z) : Response :=
  mkResponse 200 (JObj [("status", jtext "success");
                        ("token", JStr (session_token i now));
                        ("user", JObj [("id", jtext i); ("name", jtext (u_name u));
                                       ("email", jtext (u_email u));
                                       ("role", jtext (u_role u))])]).

Definition InvalidStepUpToken : Response :=
  mkResponse 400 (JObj [("status", jtext "failed"); ("message", jtext "Invalid token")]).

(** The stored user with [twoFactorEnabled] set to [b]. *)
Definition with_twoFactorEnabled (b : bool) (u : User) : User :=
  mkUser (u_name u) (u_email u) (u_password u) (u_isEmailVerified u) (u_role u)
         b (u_twoFactorSecret u).

(** The stored user after [disable2FA]: flag off, secret unset. *)
Definition two_factor_cleared (u : User) : User :=
  mkUser (u_name u) (u_email u) (u_password u) (u_isEmailVerified u) (u_role u) false None.

Definition with_twoFactorSecret (s : option string) (u : User) : User :=
  mkUser (u_name u) (u_email u) (u_password u) (u_isEmailVerified u) (u_role u)
         (u_twoFactorEnabled u) s.

Definition with_isEmailVerified (b : bool) (u : User) : User :=
  mkUser (u_name u) (u_email u) (u_password u) b (u_role u)
         (u_twoFactorEnabled u) (u_twoFactorSecret u).

(** A stored user with [twoFactorEnabled] has a [twoFactorSecret]. *)
Definition two_factor_invariant (db : DB) : Prop :=
  ∀ i u, db !! i = Some u → u_twoFactorEnabled u = true → is_Some (u_twoFactorSecret u).

(** The requests of the controller, with what the environment supplies. *)
Inductive Request :=
| Signup (req_body : Json) (newId : string)
| VerifyEmail (req_query : Json)
| Login (req_body : Json)
| Setup2FA (req_user : option Doc) (base32 otpauth_url : string)
| Verify2FA (req_body : Json)
| Confirm2FA (req_user : option Doc) (req_body : Json)
| Disable2FA (req_user : option Doc)
| Logout
| Protect (authorization : option (list Str)) (cookies_jwt : option Str)
| RestrictTo (roles : list string) (req_user : option Doc).

Definition handle (r : Request) (now : Z) : M () :=
  match r with
  | Signup req_body newId => signup req_body newId now
  | VerifyEmail req_query => verifyEmail req_query now
  | Login req_body => login req_body now
  | Setup2FA req_user base32 otpauth_url => setup2FA req_user base32 otpauth_url
  | Verify2FA req_body => verify2FA req_body now
  | Confirm2FA req_user req_body => confirm2FA req_user req_body now
  | Disable2FA req_user => disable2FA req_user
  | Logout => logout
  | Protect authorization cookies_jwt => protect authorization cookies_jwt now
  | RestrictTo roles req_user => restrictTo roles req_user
  end.

Definition NotSetup : Response :=
  mkResponse 404 (JObj [("messaage", jtext "User not found or 2FA not setup")]).

Definition InvalidCode : Response :=
  mkResponse 401 (JObj [("message", jtext "invalid 2FA code")]).

Definition TwoFactorEnabled : Response :=
  mkResponse 200 (JObj [("message", jtext "2FA Enabled successfully")]).

End Controller.


(** * A worked scenario *)

(** The controller under [userSchema], with stand-ins for the libraries: a
    hash that prefixes its input, the matching comparison, and a TOTP that
    accepts the code ["123456"]. *)
Definition ex_cfg : Config := mkConfig "s3cret" 3600 "http://localhost:3000" 7 "development".
Definition ex_compact (j : Jwt) : string := "eyJhbGciOiJIUzI1NiJ9".
Definition ex_isEmail (s : string) : bool := bool_decide (s ≠ "").
Definition ex_hash (pw : string) : string := "$2b$" +:+ pw.
Definition ex_compare (candidate hash : string) : bool := bool_decide (hash = ex_hash candidate).
Definition ex_totp (secret : string) (code : Json) (now : Z) : bool :=
  match code with
  | JStr (Plain c) => bool_decide (c = "123456")
  | _ => false
  end.

Definition ex_signup := signup userSchema ex_cfg ex_compact ex_isEmail ex_hash "user".
Definition ex_verifyEmail := verifyEmail userSchema ex_cfg ex_compact.
Definition ex_login := login userSchema ex_cfg ex_compact ex_isEmail ex_compare.
Definition ex_verify2FA := verify2FA userSchema ex_cfg ex_totp.
Definition ex_confirm2FA := confirm2FA userSchema ex_compact ex_totp.
Definition ex_disable2FA := disable2FA userSchema.
Definition ex_protect := protect userSchema ex_cfg ex_compact.

(** Ann signs up at second 1000 and gets the id ["66a1f0c2b3d4e5f6a7b8c9d1"]. *)
Definition ann_body : Json :=
  JObj [("name", jtext "Ann"); ("email", jtext "a@x.com"); ("password", jtext "longpass1")].
Definition ann_login : Json :=
  JObj [("email", jtext "a@x.com"); ("password", jtext "longpass1")].
Definition ann_signed_up : World := run (ex_signup ann_body "66a1f0c2b3d4e5f6a7b8c9d1" 1000000) ∅.

(** The token of the mail Ann receives. *)
Definition ann_token : Str :=
  Compact (mkJwt (issued "66a1f0c2b3d4e5f6a7b8c9d1" 86400 1000000) "s3cret$2b$longpass1"
                 (issued "66a1f0c2b3d4e5f6a7b8c9d1" 86400 1000000)).

(** Ann as stored in later states: verified, with a pending secret, with
    2FA on, and with another password. *)
Definition ann (verified enabled : bool) (secret : option string) : User :=
  mkUser "Ann" "a@x.com" "$2b$longpass1" verified "user" enabled secret.
Definition ann_doc : Doc := load userSchema default_select "66a1f0c2b3d4e5f6a7b8c9d1" (ann true true None).
Definition ann_pending : DB := {[ "66a1f0c2b3d4e5f6a7b8c9d1" := ann true false (Some "JBSWY3DPEHPK3PXP") ]}.
Definition ann_enabled : DB := {[ "66a1f0c2b3d4e5f6a7b8c9d1" := ann true true (Some "JBSWY3DPEHPK3PXP") ]}.
Definition ann_new_password : DB :=
  {[ "66a1f0c2b3d4e5f6a7b8c9d1" := mkUser "Ann" "a@x.com" "$2b$newpass99" false "user" false None ]}.

(** Ann's step-up and session tokens, issued at second 2000. *)
Definition ann_step_up : Str :=
  Compact (mkJwt (issued "66a1f0c2b3d4e5f6a7b8c9d1" 300 2000000) "s3cret" (issued "66a1f0c2b3d4e5f6a7b8c9d1" 300 2000000)).
Definition ann_session : Str := session_token ex_cfg "66a1f0c2b3d4e5f6a7b8c9d1" 2000000.
Definition ann_secret : string := "JBSWY3DPEHPK3PXP".

(** Tokens the gate must refuse, besides Ann's step-up token from second
    2300 on: one signed with another key, one whose payload was changed
    after signing, and a sound one for a user who is gone. *)
Definition forged_token : Jwt :=
  mkJwt (issued "66a1f0c2b3d4e5f6a7b8c9d1" 3600 2000000) "guess" (issued "66a1f0c2b3d4e5f6a7b8c9d1" 3600 2000000).
Definition tampered_token : Jwt :=
  mkJwt (issued "admin" 3600 2000000) "s3cret" (issued "66a1f0c2b3d4e5f6a7b8c9d1" 3600 2000000).
Definition gone_token : Jwt :=
  mkJwt (issued "66a1f0c2b3d4e5f6a7b8c9d2" 3600 2000000) "s3cret" (issued "66a1f0c2b3d4e5f6a7b8c9d2" 3600 2000000).


(** Turned away: 401, and the next handler not called. *)
Definition rejected (w : World) : Prop :=
  w_next w = None ∧ status <$> w_res w = Some 401.

(** * Vocabulary of the further properties *)

(** The answer of the gate to a request without a token. *)
Definition NotLoggedIn : Response :=
  mkResponse 401 (JObj [("message",
                         jtext "You are not logged in!, Please log in to get access")]).

(** A handler run that answered, and did nothing but answer and write. *)
Definition quiet (w : World) : Prop :=
  w_cookies w = [] ∧ w_mail w = [] ∧ w_next w = None ∧ is_Some (w_res w).

(** No two stored users have the same email. *)
Definition unique_emails (db : DB) : Prop :=
  ∀ i j u v, db !! i = Some u → db !! j = Some v → u_email u = u_email v → i = j.

(** A stored user with 2FA on has a secret that is not empty. *)
Definition secret_ready (db : DB) : Prop :=
  ∀ i u, db !! i = Some u → u_twoFactorEnabled u = true →
         ∃ secret, u_twoFactorSecret u = Some secret ∧ secret ≠ "".

Section Vocabulary.
Variable schema : Schema.
Variable cfg : Config.
Variable compact : Jwt → string.
Variable isEmail : string → bool.
Variable hashPassword : string → string.
Variable bcrypt_compare : string → string → bool.
Variable default_role : string.
Variable totp_verify : string → Json → Z → bool.

(** The mail signup sends. *)
Definition verification_mail (email : string) (token : Str) : Email :=
  mkEmail email "Verify Your Email"
          [Plain "Please click <a href="; Plain dquote; Plain (frontend_url cfg);
           Plain "/verify-email?token="; token; Plain dquote;
           Plain "> here</a> to verify your email"].

(** The verification token signup signs for a new user. *)
Definition verification_token_for (newId pw : string) (now : Z) : Str :=
  Compact (mkJwt (issued newId 86400 now) (jwt_secret cfg +:+ hashPassword pw)
                 (issued newId 86400 now)).
(** The store after a sequence of requests, each handled at its clock. *)
Definition run_all (requests : list (Request * Z)) (db : DB) : DB :=
  foldl (λ db rn, w_db (run (handle schema cfg compact isEmail hashPassword bcrypt_compare
                                    default_role totp_verify rn.1 rn.2) db))
        db requests.
End Vocabulary.

(** ** More of the scenario *)

Definition ex_setup2FA := setup2FA userSchema.
Definition ex_handle :=
  handle userSchema ex_cfg ex_compact ex_isEmail ex_hash ex_compare "user" ex_totp.
Definition ex_run_all :=
  run_all userSchema ex_cfg ex_compact ex_isEmail ex_hash ex_compare "user" ex_totp.

(** Ann before she verified her email, and verified without 2FA. *)
Definition ann_unverified : DB := {[ "66a1f0c2b3d4e5f6a7b8c9d1" := ann false false None ]}.
Definition ann_plain : DB := {[ "66a1f0c2b3d4e5f6a7b8c9d1" := ann true false None ]}.
Definition ann_plain_doc : Doc := load userSchema default_select "66a1f0c2b3d4e5f6a7b8c9d1" (ann true false None).

(** Bob signs up, once typing his address with capitals; another body has
    a password that is too short. *)
Definition bob_body : Json :=
  JObj [("name", jtext "Bob"); ("email", jtext "b@x.com"); ("password", jtext "hunter2hunter2")].
Definition bob_caps_body : Json :=
  JObj [("name", jtext "Bob"); ("email", jtext "Bob@X.com"); ("password", jtext "hunter2hunter2")].
Definition short_password_body : Json :=
  JObj [("name", jtext "Bob"); ("email", jtext "b@x.com"); ("password", jtext "short")].
Definition short_login_body : Json :=
  JObj [("email", jtext "a@x.com"); ("password", jtext "short")].
Definition confirm_body : Json := JObj [("token", jtext "x"); ("code", jtext "123456")].
Definition short_code_body : Json := JObj [("token", jtext "x"); ("code", jtext "12345")].

(** The environment with [JWT_SECRET] unset. *)
Definition ex_cfg_unset : Config :=
  mkConfig "" 3600 "http://localhost:3000" 7 "development".

(** A schema that returns every path. *)
Definition openSchema : Schema := mkSchema true true isObjectId toLowerCase.

(** * Properties *)


(** ** Strings and tokens *)

Lemma append_inj_l (a b c : string) : a +:+ b = a +:+ c → b = c.
Proof. induction a as [|x a IH]; simpl; [done|]. intros [=]. auto. Qed.

Lemma sign_inr id key expiresIn now t :
  jwt.sign id key expiresIn now = inr t →
  key ≠ "" ∧ t = Compact (mkJwt (issued id expiresIn now) key (issued id expiresIn now)).
Proof.
  unfold jwt.sign. destruct (decide (key = "")); [done|].
  intros [= <-]. done.
Qed.

Lemma sign_total id key expiresIn now :
  key ≠ "" →
  jwt.sign id key expiresIn now
  = inr (Compact (mkJwt (issued id expiresIn now) key (issued id expiresIn now))).
Proof. intros Hk. unfold jwt.sign. destruct (decide (key = "")); done. Qed.

Lemma verify_inr token key now c :
  jwt.verify token key now = inr c →
  ∃ j, token = Some (JStr (Compact j)) ∧ key ≠ "" ∧ sig_key j = key
       ∧ sig_claims j = jwt_claims j ∧ c = jwt_claims j
       ∧ ∀ exp, c_exp c = Some exp → now `div` 1000 < exp.
Proof.
  unfold jwt.verify. destruct token as [[| | |[|j]| |]|]; try done.
  destruct (decide (key = "")); [done|].
  case_bool_decide as Hs; simpl; [|done]. destruct Hs as [Hk Hc].
  destruct (c_exp (jwt_claims j)) as [exp|] eqn:He.
  - case_bool_decide; [done|]. intros [= <-]. exists j. repeat split; try done.
    intros exp' He'. rewrite He in He'. injection He' as <-. lia.
  - intros [= <-]. exists j. repeat split; try done. intros exp' He'. congruence.
Qed.

Lemma verify_signed j key now :
  key ≠ "" → sig_key j = key → sig_claims j = jwt_claims j →
  (∀ exp, c_exp (jwt_claims j) = Some exp → now `div` 1000 < exp) →
  jwt.verify (Some (JStr (Compact j))) key now = inr (jwt_claims j).
Proof.
  intros Hk Hs Hc He. unfold jwt.verify.
  destruct (decide (key = "")); [done|].
  rewrite bool_decide_eq_true_2 by done. simpl.
  destruct (c_exp (jwt_claims j)) as [exp|]; [|done].
  specialize (He exp eq_refl). rewrite bool_decide_eq_false_2 by lia. done.
Qed.

Lemma verify_sign id key expiresIn now t now' :
  jwt.sign id key expiresIn now = inr t →
  now' `div` 1000 < now `div` 1000 + expiresIn →
  jwt.verify (Some (JStr t)) key now' = inr (issued id expiresIn now).
Proof.
  intros [Hk ->]%sign_inr Hlt.
  apply (verify_signed (mkJwt _ _ _)); simpl; try done.
  intros exp [= <-]. done.
Qed.

Lemma verify_other_key j key now :
  sig_key j ≠ key → ∃ e, jwt.verify (Some (JStr (Compact j))) key now = inl e.
Proof.
  intros Hk. unfold jwt.verify. destruct (decide (key = "")); [by eexists|].
  rewrite bool_decide_eq_false_2 by (intros [? ?]; done). by eexists.
Qed.

(** ** The store *)

(** A [save] of a document of a stored user replaces the stored user. *)
Lemma save_insert (db : DB) i u (d : Doc) (u' : User) :
  db !! i = Some u → d_id d = i →
  foldr (write d) u (d_modified d) = u' →
  save db d = <[i := u']> db.
Proof.
  intros Hu <- <-. unfold save. apply map_eq. intros k.
  rewrite lookup_alter, lookup_insert. case_decide; [subst; by rewrite Hu|done].
Qed.

Section Store.
Variable schema : Schema.

Lemma findOne_Some db email sel d :
  findOne schema db email sel = Some d →
  ∃ i u, db !! i = Some u ∧ u_email u = email ∧ d = load schema sel i u.
Proof.
  unfold findOne. intros H.
  destruct (list_find _ _) as [[n [i u]]|] eqn:E; simpl in H; [|done].
  injection H as <-.
  apply list_find_Some in E as (Hl & He & _).
  apply list_elem_of_lookup_2 in Hl. apply elem_of_map_to_list in Hl.
  exists i, u. auto.
Qed.

Lemma findById_lookup db i sel :
  findById schema db (Some i) sel
  = match db !! i with
    | Some u => inr (Some (load schema sel i u))
    | None => if valid_id schema i then inr None else inl (CastError i "_id")
    end.
Proof. done. Qed.

Lemma password_selected i u :
  d_password (load schema (select_plus path_password) i u) = Some (u_password u).
Proof. simpl. by rewrite orb_true_r. Qed.

Lemma twoFactorSecret_selected i u :
  d_twoFactorSecret (load schema (select_plus path_twoFactorSecret) i u) = u_twoFactorSecret u.
Proof. simpl. by rewrite orb_true_r. Qed.
End Store.

(** ** The handlers *)

(** Unfolds the handler monad down to the world a handler leaves. *)
Ltac exec :=
  unfold run, start, try_catch, mbind, M_bind, mret, M_ret, lift,
    User_findOne, User_findById, comparePassword, res_json, res_cookie,
    user_save, persist, next, SendEmail.

(** Closes the equation between the world a saving handler leaves and its
    description with the saved user inserted. *)
Ltac saved :=
  repeat first [done | eapply save_insert; [eassumption|done|done] | f_equal].

#[local] Arguments jwt.sign : simpl never.
#[local] Arguments jwt.verify : simpl never.
#[local] Arguments signupSchema : simpl never.
#[local] Arguments loginSchema : simpl never.
#[local] Arguments verifyEmailSchema : simpl never.
#[local] Arguments enable2FASchema : simpl never.
#[local] Arguments findOne : simpl never.
#[local] Arguments findById : simpl never.
#[local] Arguments load : simpl never.
#[local] Arguments save : simpl never.

Section Claims.
Variable schema : Schema.
Variable cfg : Config.
Variable compact : Jwt → string.
Variable isEmail : string → bool.
Variable hashPassword : string → string.
Variable bcrypt_compare : string → string → bool.
Variable default_role : string.
Variable totp_verify : string → Json → Z → bool.

Abbreviation created' := (created hashPassword default_role).
Abbreviation session_token' := (session_token cfg).
Abbreviation SessionOpened' := (SessionOpened cfg).
Abbreviation Unacceptable' := (Unacceptable cfg).
Abbreviation handle' :=
  (handle schema cfg compact isEmail hashPassword bcrypt_compare default_role totp_verify).
Abbreviation login' := (login schema cfg compact isEmail bcrypt_compare).
Abbreviation loginSchema' := (loginSchema compact isEmail).

(** C5: a login naming an email nobody has and a login naming a user with
    a wrong password leave the same world: the store untouched, no cookie,
    and the same 401 response. *)
Theorem login_hides_account_existence db body1 body2 e1 p1 e2 p2 i u now1 now2 :
  loginSchema' body1 = inr (e1, p1) →
  loginSchema' body2 = inr (e2, p2) →
  findOne schema db e1 (select_plus path_password) = None →
  findOne schema db e2 (select_plus path_password)
  = Some (load schema (select_plus path_password) i u) →
  bcrypt_compare p2 (u_password u) = false →
  run (login' body1 now1) db = mkWorld db (Some InvalidCredentials) [] [] None
  ∧ run (login' body2 now2) db = mkWorld db (Some InvalidCredentials) [] [] None.
Proof.
  intros H1 H2 F1 F2 Hc. split; unfold login; exec.
  - rewrite H1. simpl. rewrite F1. done.
  - rewrite H2. simpl. rewrite F2, password_selected. simpl.
    rewrite Hc. done.
Qed.

(** C2: for a verified user with 2FA on and the right password, login sets
    no cookie, leaves the store alone and puts neither [token] nor [user]
    in the body; with a signing secret configured it answers 200 with the
    message, the flag and a step-up token for the user that expires 300
    seconds after issue. *)
Theorem login_two_factor_step_up db req_body email pw i u now :
  loginSchema' req_body = inr (email, pw) →
  findOne schema db email (select_plus path_password)
  = Some (load schema (select_plus path_password) i u) →
  bcrypt_compare pw (u_password u) = true →
  u_isEmailVerified u = true →
  u_twoFactorEnabled u = true →
  let w := run (login' req_body now) db in
  w_cookies w = [] ∧ w_db w = db
  ∧ (∀ r, w_res w = Some r → field "token" (body r) = None ∧ field "user" (body r) = None)
  ∧ (jwt_secret cfg ≠ "" →
     let tempToken := Compact (mkJwt (issued i 300 now) (jwt_secret cfg) (issued i 300 now)) in
     jwt.sign i (jwt_secret cfg) 300 now = inr tempToken
     ∧ w_res w = Some (mkResponse 200 (JObj [("message", jtext "2FA required");
                                             ("tempToken", JStr tempToken);
                                             ("twoFactorEnabled", JBool true)]))
     ∧ c_exp (issued i 300 now) = Some (c_iat (issued i 300 now) + 300)).
Proof.
  intros Hp Hf Hc Hv He. unfold login; exec.
  rewrite Hp. simpl. rewrite Hf, password_selected. simpl.
  rewrite Hc. simpl. unfold load at 1 2. simpl. rewrite Hv, He. simpl.
  destruct (decide (jwt_secret cfg = "")) as [Hs|Hs].
  - unfold jwt.sign. rewrite Hs. simpl.
    split_and!; [done|done|by intros r [= <-]|done].
  - rewrite (sign_total _ _ _ _ Hs). simpl.
    split_and!; [done|done|by intros r [= <-]|done].
Qed.
Abbreviation signup' := (signup schema cfg compact isEmail hashPassword default_role).
Abbreviation signupSchema' := (signupSchema compact isEmail).
Abbreviation verifyEmail' := (verifyEmail schema cfg compact).
Abbreviation verifyEmailSchema' := (verifyEmailSchema compact).

(** A signup that answers 201 parsed its input, found the email and the id
    free, stored the new user, and mailed one token, signed for the new id
    with the secret followed by the stored hash. *)
Lemma signup_201 db req_body newId now :
  let w := run (signup' req_body newId now) db in
  status <$> w_res w = Some 201 →
  ∃ name email pw token,
    signupSchema' req_body = inr (name, email, pw)
    ∧ db !! newId = None
    ∧ w_db w = <[newId := created' name (email_setter schema email) pw]> db
    ∧ jwt.sign newId (jwt_secret cfg +:+ hashPassword pw) 86400 now = inr token
    ∧ verification_token <$> w_mail w = [Some token].
Proof.
  unfold signup; exec.
  destruct (signupSchema' req_body) as [e|[[name email] pw]] eqn:Hp; simpl.
  { destruct e; simpl; done. }
  destruct (findOne schema db email default_select); simpl; [done|].
  unfold User_create. simpl.
  destruct (db !! newId) eqn:Hn; simpl; [done|].
  destruct (findOne schema db (email_setter schema email) default_select); simpl; [done|].
  unfold js_concat. simpl.
  destruct (jwt.sign newId _ 86400 now) as [e|token] eqn:Hs; simpl.
  { destruct e; simpl; done. }
  intros _. exists name, email, pw, token. done.
Qed.

(** [verifyEmail] on a token signed with another key than the secret
    followed by what the handler reads as [user.password]. *)
Lemma verifyEmail_other_key db req_query j i u now :
  verifyEmailSchema' req_query = inr (Compact j) →
  c_id (jwt_claims j) = Some i → i ≠ "" →
  db !! i = Some u →
  sig_key j ≠ js_concat (jwt_secret cfg) (d_password (load schema default_select i u)) →
  run (verifyEmail' req_query now) db
  = mkWorld db (Some InvalidVerificationToken) [] [] None.
Proof.
  intros Hq Hi Hne Hu Hk. unfold verifyEmail; exec.
  rewrite Hq. simpl. rewrite Hi. simpl.
  rewrite bool_decide_eq_false_2 by done. simpl.
  rewrite findById_lookup, Hu. simpl. simpl in Hk.
  destruct (verify_other_key j _ now Hk) as [e ->]. done.
Qed.

(** C1: a verification token mailed by signup is refused, and the store
    left as it is, once the user's stored hash is no longer the one the
    token was issued under. *)
Theorem verifyEmail_rejects_after_password_change
    db req_body newId now token u0 db' u req_query now' :
  let w := run (signup' req_body newId now) db in
  status <$> w_res w = Some 201 →
  verification_token <$> w_mail w = [Some token] →
  w_db w !! newId = Some u0 →
  db' !! newId = Some u →
  u_password u ≠ u_password u0 →
  (select_password schema = false → u_password u0 ≠ "undefined") →
  newId ≠ "" →
  verifyEmailSchema' req_query = inr token →
  run (verifyEmail' req_query now') db'
  = mkWorld db' (Some InvalidVerificationToken) [] [] None.
Proof.
  intros w H201 Hm Hu0 Hu Hch Hund Hid Hq.
  destruct (signup_201 db req_body newId now H201)
    as (name & email & pw & token' & Hp & Hfree & Hdb & Hs & Hm').
  fold w in Hdb, Hm'. rewrite Hm in Hm'. injection Hm' as <-.
  rewrite Hdb, lookup_insert_eq in Hu0. injection Hu0 as <-.
  apply sign_inr in Hs as [_ ->]. simpl in Hch, Hund.
  eapply verifyEmail_other_key; eauto. simpl.
  unfold js_concat, load, selected. simpl.
  rewrite orb_false_r.
  destruct (select_password schema); simpl.
  - intros Heq%append_inj_l. congruence.
  - intros Heq%append_inj_l. by apply Hund.
Qed.

(** [verifyEmail] on a token that verifies under the key the handler
    builds: a user not yet verified becomes verified, a verified one is
    told so and nothing is written. *)
Lemma verifyEmail_valid db req_query j i u now :
  verifyEmailSchema' req_query = inr (Compact j) →
  c_id (jwt_claims j) = Some i → i ≠ "" →
  db !! i = Some u →
  jwt.verify (Some (JStr (Compact j)))
             (js_concat (jwt_secret cfg) (d_password (load schema default_select i u))) now
  = inr (jwt_claims j) →
  run (verifyEmail' req_query now) db
  = if u_isEmailVerified u
    then mkWorld db (Some AlreadyVerified) [] [] None
    else
      let db' := <[i := mkUser (u_name u) (u_email u) (u_password u) true (u_role u)
                               (u_twoFactorEnabled u) (u_twoFactorSecret u)]> db in
      mkWritten db' (Some EmailVerified) [] [] None [db'].
Proof.
  intros Hq Hi Hne Hu Hv. unfold verifyEmail; exec.
  rewrite Hq. simpl. rewrite Hi. simpl.
  rewrite bool_decide_eq_false_2 by done. simpl.
  rewrite findById_lookup, Hu. simpl. simpl in Hv. rewrite Hv.
  unfold load. simpl. destruct (u_isEmailVerified u); [done|].
  simpl. by erewrite save_insert.
Qed.

(** Under a schema that keeps [password] out of default reads, as
    [userSchema] does, [verifyEmail] loads the user without the hash and
    verifies against the secret followed by ["undefined"]: the token signup
    mailed is refused at every time, already at its first use. *)
Lemma verifyEmail_refuses_signup_token db req_body newId now token u0 req_query now' :
  select_password schema = false →
  let w := run (signup' req_body newId now) db in
  status <$> w_res w = Some 201 →
  verification_token <$> w_mail w = [Some token] →
  w_db w !! newId = Some u0 →
  u_password u0 ≠ "undefined" →
  newId ≠ "" →
  verifyEmailSchema' req_query = inr token →
  run (verifyEmail' req_query now') (w_db w)
  = mkWorld (w_db w) (Some InvalidVerificationToken) [] [] None.
Proof.
  intros Hsel w H201 Hm Hu0 Hund Hid Hq.
  destruct (signup_201 db req_body newId now H201)
    as (name & email & pw & token' & Hp & Hfree & Hdb & Hs & Hm').
  fold w in Hdb, Hm'. rewrite Hm in Hm'. injection Hm' as <-.
  apply sign_inr in Hs as [_ ->].
  eapply verifyEmail_other_key; eauto. simpl.
  unfold js_concat, load, selected. simpl. rewrite Hsel. simpl.
  intros Heq%append_inj_l.
  rewrite Hdb, lookup_insert_eq in Hu0. injection Hu0 as <-. by apply Hund.
Qed.

(** Under a schema that returns [password] in default reads, the token
    signup mailed verifies the user at its first use before expiry, and is
    answered [AlreadyVerified], with nothing written, at every later one. *)
Lemma verifyEmail_once_if_password_selected
    db req_body newId now token req_query now1 now2 :
  select_password schema = true →
  let w := run (signup' req_body newId now) db in
  status <$> w_res w = Some 201 →
  verification_token <$> w_mail w = [Some token] →
  newId ≠ "" →
  verifyEmailSchema' req_query = inr token →
  now1 `div` 1000 < now `div` 1000 + 86400 →
  now2 `div` 1000 < now `div` 1000 + 86400 →
  let w1 := run (verifyEmail' req_query now1) (w_db w) in
  u_isEmailVerified <$> w_db w !! newId = Some false
  ∧ w_res w1 = Some EmailVerified
  ∧ u_isEmailVerified <$> w_db w1 !! newId = Some true
  ∧ run (verifyEmail' req_query now2) (w_db w1)
    = mkWorld (w_db w1) (Some AlreadyVerified) [] [] None.
Proof.
  intros Hsel w H201 Hm Hid Hq Hn1 Hn2.
  destruct (signup_201 db req_body newId now H201)
    as (name & email & pw & token' & Hp & Hfree & Hdb & Hs & Hm').
  fold w in Hdb, Hm'. rewrite Hm in Hm'. injection Hm' as <-.
  pose proof (verify_sign _ _ _ _ _ now1 Hs Hn1) as Hv1.
  pose proof (verify_sign _ _ _ _ _ now2 Hs Hn2) as Hv2.
  apply sign_inr in Hs as [_ ->].
  set (j := mkJwt _ _ _) in *.
  set (u0 := created' name (email_setter schema email) pw).
  set (u1 := mkUser name (email_setter schema email) (hashPassword pw) true default_role
                    false None).
  assert (Hkey : ∀ u, u_password u = hashPassword pw →
            js_concat (jwt_secret cfg) (d_password (load schema default_select newId u))
            = jwt_secret cfg +:+ hashPassword pw).
  { intros u Hu. unfold js_concat, load, selected. simpl. rewrite Hsel, Hu. done. }
  assert (Hw1 : run (verifyEmail' req_query now1) (w_db w)
                = mkWritten (<[newId := u1]> (w_db w)) (Some EmailVerified) [] [] None
                            [<[newId := u1]> (w_db w)]).
  { rewrite (verifyEmail_valid (w_db w) req_query j newId u0 now1 Hq eq_refl Hid).
    - done.
    - by rewrite Hdb, lookup_insert_eq.
    - by rewrite Hkey. }
  intros w1. subst w1. rewrite Hw1. simpl.
  split_and!.
  - by rewrite Hdb, lookup_insert_eq.
  - done.
  - by rewrite lookup_insert_eq.
  - rewrite (verifyEmail_valid _ req_query j newId u1 now2 Hq eq_refl Hid).
    + done.
    + by rewrite lookup_insert_eq.
    + by rewrite Hkey.
Qed.

Abbreviation protect' := (protect schema cfg compact).
Abbreviation request_token' := (request_token compact).

(** A request with neither header nor cookie carries no token. *)
Lemma request_token_none : request_token' None None = None.
Proof. done. Qed.

(** A header [Bearer <token>] carries that token, whatever the cookie. *)
Lemma request_token_bearer t cookies_jwt :
  request_token' (Some [Plain "Bearer"; t]) cookies_jwt = Some t.
Proof. done. Qed.

(** Without a header the [jwt] cookie carries the token. *)
Lemma request_token_cookie j :
  request_token' None (Some (Compact j)) = Some (Compact j).
Proof. done. Qed.

(** The gate lets a request through when its token verifies under the
    secret and names a stored user, who becomes [req.user]. *)
Lemma protect_accepts db authorization cookies_jwt now t c i u :
  request_token' authorization cookies_jwt = Some t →
  jwt.verify (Some (JStr t)) (jwt_secret cfg) now = inr c →
  c_id c = Some i →
  db !! i = Some u →
  run (protect' authorization cookies_jwt now) db
  = mkWorld db None [] [] (Some (load schema default_select i u)).
Proof.
  intros Ht Hv Hi Hu. unfold protect; exec. rewrite Ht. simpl.
  destruct (verify_inr _ _ _ _ Hv) as (j & [= ->] & _). simpl.
  rewrite Hv. simpl. rewrite Hi, findById_lookup, Hu. done.
Qed.

(** C8: the gate answers 401 and does not call the next handler when the
    request carries no token, an expired token, a string that is no token,
    a token with an invalid signature, or a valid token of a user that no
    longer exists; the store is not touched. *)
Theorem protect_rejects db authorization cookies_jwt now :
  Unacceptable' db now (request_token' authorization cookies_jwt) →
  let w := run (protect' authorization cookies_jwt now) db in
  w_next w = None ∧ status <$> w_res w = Some 401 ∧ w_db w = db ∧ w_cookies w = [].
Proof.
  intros H. unfold protect; exec.
  destruct H as [|j exp He Hle|s|j Hs|j i Hi Hu]; simpl; [done|..].
  - destruct (jwt.verify _ _ _) as [e|c] eqn:Hv; simpl; [done|].
    apply verify_inr in Hv as (j' & [= <-] & _ & _ & _ & -> & Hexp).
    specialize (Hexp _ He). lia.
  - by case_bool_decide.
  - destruct (jwt.verify _ _ _) as [e|c] eqn:Hv; simpl; [done|].
    apply verify_inr in Hv as (j' & [= <-] & _ & Hk & Hc & _). by destruct Hs.
  - destruct (jwt.verify _ _ _) as [e|c] eqn:Hv; simpl; [done|].
    apply verify_inr in Hv as (j' & [= <-] & _ & _ & _ & -> & _).
    rewrite Hi, findById_lookup, Hu. by destruct (valid_id schema i).
Qed.

Abbreviation verify2FA' := (verify2FA schema cfg totp_verify).
Abbreviation disable2FA' := (disable2FA schema).

(** [verify2FA] opens a session when the token verifies under the secret,
    the user it names has a stored secret and the code is right for it.
    The user's [twoFactorEnabled] is not among the conditions. *)
Lemma verify2FA_accepts db req_body tempToken code now c i u secret :
  verify2FA_body req_body = inr (tempToken, code) →
  jwt.verify tempToken (jwt_secret cfg) now = inr c →
  c_id c = Some i →
  db !! i = Some u →
  u_twoFactorSecret u = Some secret → secret ≠ "" →
  totp_verify secret (default JUndefined code) now = true →
  run (verify2FA' req_body now) db
  = mkWorld db (Some (SessionOpened' i u now))
            [session_cookie cfg (session_token' i now) now] [] None.
Proof.
  intros Hb Hv Hi Hu Hs Hne Ht. unfold verify2FA; exec.
  rewrite Hb. simpl. rewrite Hv. simpl. rewrite Hi, findById_lookup, Hu. simpl.
  rewrite orb_true_r, Hs. simpl. rewrite bool_decide_eq_false_2 by done. simpl.
  rewrite Ht. simpl.
  destruct (verify_inr _ _ _ _ Hv) as (j & _ & Hk & _).
  unfold signToken. rewrite (sign_total _ _ _ _ Hk). done.
Qed.

(** [verify2FA] refuses, with no cookie, a token naming a user who has no
    stored secret. *)
Lemma verify2FA_no_secret db req_body tempToken code now c i u :
  verify2FA_body req_body = inr (tempToken, code) →
  jwt.verify tempToken (jwt_secret cfg) now = inr c →
  c_id c = Some i →
  db !! i = Some u →
  u_twoFactorSecret u = None →
  run (verify2FA' req_body now) db = mkWorld db (Some InvalidStepUpToken) [] [] None.
Proof.
  intros Hb Hv Hi Hu Hs. unfold verify2FA; exec.
  rewrite Hb. simpl. rewrite Hv. simpl. rewrite Hi, findById_lookup, Hu. simpl.
  rewrite orb_true_r, Hs. done.
Qed.

(** A token that does not verify gets 401 and no cookie. *)
Lemma verify2FA_invalid_token db req_body tempToken code now e :
  verify2FA_body req_body = inr (tempToken, code) →
  jwt.verify tempToken (jwt_secret cfg) now = inl e →
  run (verify2FA' req_body now) db
  = mkWorld db (Some (mkResponse 401 (JObj [("message", jtext "Invalid or expired token")])))
            [] [] None.
Proof.
  intros Hb Hv. unfold verify2FA; exec. rewrite Hb. simpl. rewrite Hv. done.
Qed.

(** C10: [verify2FA] opens a session for a user whose secret is stored but
    not confirmed, given a token that verifies under the secret and a right
    code: it answers 200 with a session token for the user, and sets that
    token as the one cookie, named [jwt], http-only, secure in production
    only, expiring [COOKIE_EXPIRES_IN] days from now; nothing is written.
    And whatever the request, setting the users' [twoFactorEnabled] to any
    value changes neither the response nor the cookies. *)
Theorem verify2FA_ignores_twoFactorEnabled
    db req_body tempToken code now c i u secret :
  verify2FA_body req_body = inr (tempToken, code) →
  jwt.verify tempToken (jwt_secret cfg) now = inr c →
  c_id c = Some i →
  db !! i = Some u →
  u_twoFactorEnabled u = false →
  u_twoFactorSecret u = Some secret → secret ≠ "" →
  totp_verify secret (default JUndefined code) now = true →
  run (verify2FA' req_body now) db
  = mkWorld db (Some (SessionOpened' i u now))
            [mkCookie "jwt" (session_token' i now)
                      (now + COOKIE_EXPIRES_IN cfg * 24 * 60 * 60 * 1000) true
                      (bool_decide (NODE_ENV cfg = "production"))] [] None
  ∧ ∀ b req_body' now',
      let w := run (verify2FA' req_body' now') db in
      let w' := run (verify2FA' req_body' now') (with_twoFactorEnabled b <$> db) in
      w_res w' = w_res w ∧ w_cookies w' = w_cookies w.
Proof.
  intros Hb Hv Hi Hu _ Hs Hne Ht. split; [by eapply verify2FA_accepts|].
  intros b req_body' now'. unfold verify2FA; exec.
  destruct (verify2FA_body req_body') as [e|[tok cd]]; simpl; [done|].
  destruct (jwt.verify tok _ now') as [e|c']; simpl; [done|].
  destruct (c_id c') as [k|]; [|done].
  rewrite !findById_lookup, lookup_fmap.
  destruct (db !! k) as [uk|]; simpl; [|by destruct (valid_id schema k)].
  rewrite !orb_true_r. simpl.
  destruct (u_twoFactorSecret uk) as [s|]; simpl; [|done].
  case_bool_decide; simpl; [done|].
  destruct (totp_verify s _ now'); simpl; [|done].
  destruct (signToken cfg k now'); done.
Qed.

(** [disable2FA] for a user with 2FA on: one [save] that writes both paths. *)
Lemma disable2FA_enabled db req_user u :
  db !! d_id req_user = Some u →
  u_twoFactorEnabled u = true →
  run (disable2FA' (Some req_user)) db
  = let db' := <[d_id req_user := two_factor_cleared u]> db in
    mkWritten db'
              (Some (mkResponse 200 (JObj [("message", jtext "2FA disabled successfully")])))
              [] [] None [db'].
Proof.
  intros Hu He. unfold disable2FA; exec. simpl.
  rewrite findById_lookup, Hu. simpl. unfold load at 1. simpl. rewrite He. simpl.
  saved.
Qed.

(** C9: [disable2FA] for a user with 2FA on persists exactly one write, and
    that write leaves the store with the user's flag off and secret unset,
    all else as it was; no store with only one of the two changes is ever
    persisted.  In the store left every [verify2FA] request whose token can
    only name that user gets 400 or 401 and no cookie; and in that store,
    as in every later one where the user still has no secret, an unexpired
    step-up token gets 400 [Invalid token]. *)
Theorem disable2FA_then_verify2FA_fails db req_user u :
  db !! d_id req_user = Some u →
  u_twoFactorEnabled u = true →
  let i := d_id req_user in
  let w := run (disable2FA' (Some req_user)) db in
  w_db w = <[i := two_factor_cleared u]> db
  ∧ w_writes w = [<[i := two_factor_cleared u]> db]
  ∧ (u_twoFactorEnabled <$> w_db w !! i = Some false
     ∧ u_twoFactorSecret <$> w_db w !! i = Some None)
  ∧ (∀ req_body tempToken code now,
       verify2FA_body req_body = inr (tempToken, code) →
       (∀ c, jwt.verify tempToken (jwt_secret cfg) now = inr c → c_id c = Some i) →
       let w' := run (verify2FA' req_body now) (w_db w) in
       w_cookies w' = [] ∧ w_db w' = w_db w
       ∧ (status <$> w_res w' = Some 400 ∨ status <$> w_res w' = Some 401))
  ∧ (∀ db' u' issuedAt stepUp code now,
       db' !! i = Some u' → u_twoFactorSecret u' = None →
       jwt.sign i (jwt_secret cfg) 300 issuedAt = inr stepUp →
       now `div` 1000 < issuedAt `div` 1000 + 300 →
       run (verify2FA' (JObj [("tempToken", JStr stepUp); ("code", code)]) now) db'
       = mkWorld db' (Some InvalidStepUpToken) [] [] None).
Proof.
  intros Hu He i w. subst w.
  rewrite (disable2FA_enabled db req_user u Hu He). simpl. fold i.
  split_and!; try done; try (by rewrite lookup_insert_eq).
  - intros req_body tempToken code now Hb Hid.
    destruct (jwt.verify tempToken (jwt_secret cfg) now) as [e|c] eqn:Hv.
    + rewrite (verify2FA_invalid_token _ _ _ _ _ _ Hb Hv). simpl. auto.
    + rewrite (verify2FA_no_secret _ _ _ _ _ _ i (two_factor_cleared u) Hb Hv);
        simpl; [auto|by apply Hid|apply lookup_insert_eq|done].
  - intros db' u' issuedAt stepUp code now Hu' Hn Hs Hlt.
    eapply verify2FA_no_secret; [done|by eapply verify_sign|done..].
Qed.

(** A login response that carries a [tempToken] comes from the 2FA branch:
    the token is the one signed there, for a user with 2FA on. *)
Lemma login_tempToken db req_body now r t :
  w_res (run (login' req_body now) db) = Some r →
  field "tempToken" (body r) = Some (JStr t) →
  ∃ i u, db !! i = Some u ∧ u_twoFactorEnabled u = true
         ∧ jwt.sign i (jwt_secret cfg) 300 now = inr t.
Proof.
  unfold login; exec.
  destruct (loginSchema' req_body) as [e|[email pw]]; simpl.
  { destruct e; simpl; by intros [= <-]. }
  destruct (findOne schema db email (select_plus path_password)) as [d|] eqn:Hf; simpl;
    [|by intros [= <-]].
  apply findOne_Some in Hf as (i & u & Hu & _ & ->).
  rewrite password_selected. simpl.
  destruct (bcrypt_compare pw (u_password u)); simpl; [|by intros [= <-]].
  unfold load. simpl.
  destruct (u_isEmailVerified u); simpl; [|by intros [= <-]].
  destruct (u_twoFactorEnabled u) eqn:He; simpl.
  - destruct (jwt.sign i (jwt_secret cfg) 300 now) as [e|t'] eqn:Hs; simpl.
    { destruct e; simpl; by intros [= <-]. }
    intros [= <-]. simpl. intros [= <-]. eauto.
  - destruct (signToken cfg i now) as [e|t'] eqn:Hs; simpl.
    { destruct e; simpl; by intros [= <-]. }
    by intros [= <-].
Qed.

(** C3: the step-up token login hands out and the session token
    [signToken] issues for the same user carry the same [id], are signed
    with the secret alone and differ in their expiry only; until it
    expires the gate takes the step-up token, as header or as cookie, for
    a session token, and [verify2FA] takes a session token for a step-up
    token. *)
Theorem step_up_and_session_tokens_interchangeable db req_body now r stepUp :
  w_res (run (login' req_body now) db) = Some r →
  field "tempToken" (body r) = Some (JStr stepUp) →
  ∃ i,
    stepUp = Compact (mkJwt (issued i 300 now) (jwt_secret cfg) (issued i 300 now))
    ∧ signToken cfg i now = inr (session_token' i now)
    ∧ (let step := issued i 300 now in
       let session := issued i (jwt_expiresIn cfg) now in
       c_id step = c_id session ∧ c_iat step = c_iat session
       ∧ c_exp step = Some (c_iat step + 300)
       ∧ c_exp session = Some (c_iat session + jwt_expiresIn cfg))
    ∧ (∀ db' u cookies_jwt now',
         db' !! i = Some u →
         now' `div` 1000 < now `div` 1000 + 300 →
         run (protect' (Some [Plain "Bearer"; stepUp]) cookies_jwt now') db'
         = mkWorld db' None [] [] (Some (load schema default_select i u))
         ∧ run (protect' None (Some stepUp) now') db'
           = mkWorld db' None [] [] (Some (load schema default_select i u)))
    ∧ (∀ db' u secret code issuedAt now',
         db' !! i = Some u →
         u_twoFactorSecret u = Some secret → secret ≠ "" →
         totp_verify secret code now' = true →
         now' `div` 1000 < issuedAt `div` 1000 + jwt_expiresIn cfg →
         run (verify2FA' (JObj [("tempToken", JStr (session_token' i issuedAt));
                                ("code", code)]) now') db'
         = mkWorld db' (Some (SessionOpened' i u now'))
                   [session_cookie cfg (session_token' i now') now'] [] None).
Proof.
  intros Hr Ht.
  destruct (login_tempToken db req_body now r stepUp Hr Ht) as (i & u & Hu & He & Hs).
  exists i.
  pose proof (sign_inr _ _ _ _ _ Hs) as [Hk ->].
  split_and!; [done|by apply sign_total|by cbv zeta|..].
  - intros db' u' cookies_jwt now' Hu' Hlt.
    pose proof (verify_sign _ _ _ _ _ now' Hs Hlt) as Hv.
    split; eapply protect_accepts; eauto.
  - intros db' u' secret code issuedAt now' Hu' Hsec Hne Hc Hlt.
    eapply verify2FA_accepts; eauto.
    + simpl. eapply verify_sign; [by apply sign_total|done].
    + done.
Qed.

Abbreviation setup2FA' := (setup2FA schema).
Abbreviation confirm2FA' := (confirm2FA schema compact totp_verify).

(** *** What each handler writes *)

Lemma signup_writes db req_body newId now :
  let w := run (signup' req_body newId now) db in
  w_db w = db
  ∨ ∃ name email pw, db !! newId = None ∧ w_db w = <[newId := created' name email pw]> db.
Proof.
  unfold signup; exec.
  destruct (signupSchema' req_body) as [e|[[name email] pw]]; simpl.
  { destruct e; simpl; auto. }
  destruct (findOne schema db email default_select); simpl; [auto|].
  unfold User_create. simpl.
  destruct (db !! newId) eqn:Hn; simpl; [auto|].
  destruct (findOne schema db (email_setter schema email) default_select); simpl; [auto|].
  right. exists name, (email_setter schema email), pw. split; [done|].
  destruct (jwt.sign newId _ 86400 now) as [e|token]; simpl; [|done].
  destruct e; done.
Qed.

Lemma verifyEmail_writes db req_query now :
  let w := run (verifyEmail' req_query now) db in
  w_db w = db
  ∨ ∃ i u, db !! i = Some u ∧ w_db w = <[i := with_isEmailVerified true u]> db.
Proof.
  unfold verifyEmail; exec.
  destruct (verifyEmailSchema' req_query) as [e|token]; simpl; [auto|].
  destruct (option_bind _ _ c_id (jwt.decode token)) as [i|]; simpl; [|auto].
  destruct (bool_decide (i = "")); simpl; [auto|].
  rewrite findById_lookup.
  destruct (db !! i) as [u|] eqn:Hu; simpl; [|destruct (valid_id schema i); auto].
  destruct (jwt.verify _ _ now); simpl; [auto|].
  destruct (u_isEmailVerified u); simpl; [auto|].
  right. exists i, u. split; [done|]. by eapply save_insert.
Qed.

Lemma login_writes db req_body now : w_db (run (login' req_body now) db) = db.
Proof.
  unfold login; exec.
  destruct (loginSchema' req_body) as [e|[email pw]]; simpl.
  { destruct e; done. }
  destruct (findOne schema db email (select_plus path_password)) as [d|]; simpl; [|done].
  destruct (d_password d); simpl; [|done].
  destruct (bcrypt_compare pw _); simpl; [|done].
  destruct (d_isEmailVerified d); simpl; [|done].
  destruct (d_twoFactorEnabled d); simpl.
  - destruct (jwt.sign _ _ 300 now) as [e|?]; simpl; [destruct e|]; done.
  - destruct (signToken cfg _ now) as [e|?]; simpl; [destruct e|]; done.
Qed.

Lemma setup2FA_writes db req_user base32 otpauth_url :
  let w := run (setup2FA' req_user base32 otpauth_url) db in
  w_db w = db
  ∨ ∃ i u, db !! i = Some u ∧ u_twoFactorEnabled u = false
           ∧ w_db w = <[i := with_twoFactorSecret (Some base32) u]> db.
Proof.
  unfold setup2FA; exec.
  destruct req_user as [ru|]; simpl; [|auto].
  rewrite findById_lookup.
  destruct (db !! d_id ru) as [u|] eqn:Hu; simpl;
    [|destruct (valid_id schema (d_id ru)); auto].
  destruct (u_twoFactorEnabled u) eqn:He; simpl; [auto|].
  right. exists (d_id ru), u. split_and!; [done..|]. by eapply save_insert.
Qed.

Lemma verify2FA_writes db req_body now : w_db (run (verify2FA' req_body now) db) = db.
Proof.
  unfold verify2FA; exec.
  destruct (verify2FA_body req_body) as [e|[tok cd]]; simpl; [done|].
  destruct (jwt.verify tok _ now) as [e|c]; simpl; [done|].
  destruct (findById schema db (c_id c) _) as [e|[d|]]; simpl; [done| |done].
  destruct (truthy (d_twoFactorSecret d)); simpl; [|done].
  destruct (totp_verify _ _ now); simpl; [|done].
  destruct (signToken cfg _ now); done.
Qed.

Lemma confirm2FA_writes db req_user req_body now :
  let w := run (confirm2FA' req_user req_body now) db in
  w_db w = db
  ∨ ∃ i u secret, db !! i = Some u ∧ u_twoFactorSecret u = Some secret ∧ secret ≠ ""
                  ∧ w_db w = <[i := with_twoFactorEnabled true u]> db.
Proof.
  unfold confirm2FA; exec.
  destruct (enable2FASchema compact req_body) as [e|[token code]]; simpl.
  { destruct e; auto. }
  destruct req_user as [ru|]; simpl; [|auto].
  rewrite findById_lookup.
  destruct (db !! d_id ru) as [u|] eqn:Hu; simpl;
    [|destruct (valid_id schema (d_id ru)); auto].
  rewrite orb_true_r.
  destruct (u_twoFactorSecret u) as [secret|] eqn:Hs; simpl; [|auto].
  case_bool_decide as Hne; simpl; [auto|].
  destruct (totp_verify secret _ now); simpl; [|auto].
  right. exists (d_id ru), u, secret. split_and!; [done..|]. by eapply save_insert.
Qed.

Lemma disable2FA_writes db req_user :
  let w := run (disable2FA' req_user) db in
  w_db w = db
  ∨ ∃ i u, db !! i = Some u ∧ u_twoFactorEnabled u = true
           ∧ w_db w = <[i := two_factor_cleared u]> db.
Proof.
  unfold disable2FA; exec.
  destruct req_user as [ru|]; simpl; [|auto].
  rewrite findById_lookup.
  destruct (db !! d_id ru) as [u|] eqn:Hu; simpl;
    [|destruct (valid_id schema (d_id ru)); auto].
  destruct (u_twoFactorEnabled u) eqn:He; simpl; [|auto].
  right. exists (d_id ru), u. split_and!; [done..|]. by eapply save_insert.
Qed.

Lemma logout_writes db : w_db (run logout db) = db.
Proof. done. Qed.

Lemma protect_writes db authorization cookies_jwt now :
  w_db (run (protect' authorization cookies_jwt now) db) = db.
Proof.
  unfold protect; exec.
  destruct (from_option str_truthy false _); simpl; [|done].
  destruct (jwt.verify _ _ now) as [e|c]; simpl; [done|].
  destruct (findById schema db (c_id c) default_select) as [e|[d|]]; done.
Qed.

(** *** The 2FA invariant *)

Lemma restrictTo_writes db roles req_user : w_db (run (restrictTo roles req_user) db) = db.
Proof.
  unfold restrictTo; exec. destruct req_user as [user|]; [|done].
  by case_bool_decide.
Qed.

Lemma invariant_insert db i u :
  two_factor_invariant db →
  (u_twoFactorEnabled u = true → is_Some (u_twoFactorSecret u)) →
  two_factor_invariant (<[i := u]> db).
Proof.
  intros Hinv Hu k v. rewrite lookup_insert. case_decide.
  - intros [= <-]. done.
  - apply Hinv.
Qed.

(** C4: every request, the role check included, leaves the invariant
    standing; [confirm2FA] writes nothing but [twoFactorEnabled = true] and
    only on a user with a stored, non-empty secret, [disable2FA] writes
    nothing but the flag off together with the secret unset, and [setup2FA]
    writes nothing but a secret, on a user whose flag is off and stays off. *)
Theorem two_factor_invariant_preserved db :
  two_factor_invariant db →
  (∀ r now, two_factor_invariant (w_db (run (handle' r now) db)))
  ∧ (∀ req_user req_body now,
       let w := run (confirm2FA' req_user req_body now) db in
       w_db w = db
       ∨ ∃ i u secret, db !! i = Some u ∧ u_twoFactorSecret u = Some secret ∧ secret ≠ ""
                       ∧ w_db w = <[i := with_twoFactorEnabled true u]> db)
  ∧ (∀ req_user,
       let w := run (disable2FA' req_user) db in
       w_db w = db
       ∨ ∃ i u, db !! i = Some u ∧ u_twoFactorEnabled u = true
                ∧ w_db w = <[i := two_factor_cleared u]> db)
  ∧ (∀ req_user base32 otpauth_url,
       let w := run (setup2FA' req_user base32 otpauth_url) db in
       (∀ i, u_twoFactorEnabled <$> w_db w !! i = u_twoFactorEnabled <$> db !! i)
       ∧ (w_db w = db
          ∨ ∃ i u, db !! i = Some u ∧ u_twoFactorEnabled u = false
                   ∧ w_db w = <[i := with_twoFactorSecret (Some base32) u]> db)).
Proof.
  intros Hinv. split_and!.
  - intros [] now; simpl.
    + destruct (signup_writes db req_body newId now) as [->|(n & e & p & _ & ->)]; [done|].
      by apply invariant_insert.
    + destruct (verifyEmail_writes db req_query now) as [->|(i & u & Hu & ->)]; [done|].
      apply invariant_insert; [done|]. apply (Hinv i u Hu).
    + by rewrite login_writes.
    + destruct (setup2FA_writes db req_user base32 otpauth_url)
        as [->|(i & u & Hu & He & ->)]; [done|].
      apply invariant_insert; [done|]. simpl. eauto.
    + by rewrite verify2FA_writes.
    + destruct (confirm2FA_writes db req_user req_body now)
        as [->|(i & u & s & Hu & Hs & _ & ->)]; [done|].
      apply invariant_insert; [done|]. simpl. rewrite Hs. eauto.
    + destruct (disable2FA_writes db req_user) as [->|(i & u & Hu & He & ->)]; [done|].
      by apply invariant_insert.
    + done.
    + by rewrite protect_writes.
    + by rewrite restrictTo_writes.
  - apply confirm2FA_writes.
  - apply disable2FA_writes.
  - intros req_user base32 otpauth_url w. split; [|apply setup2FA_writes].
    destruct (setup2FA_writes db req_user base32 otpauth_url)
      as [Hw|(i & u & Hu & He & Hw)]; intros k; subst w; rewrite Hw; [done|].
    rewrite lookup_insert. case_decide; [subst; by rewrite Hu|done].
Qed.

(** *** Confirming 2FA *)

(** [enable2FASchema] wants a string [token] beside the [code]: a body
    without one is answered 400 before the user is looked at, whatever the
    code and whoever asks. *)
Lemma confirm2FA_requires_token db req_user req_body now :
  z_string compact z_any (field "token" req_body) = None →
  let w := run (confirm2FA' req_user req_body now) db in
  w_db w = db ∧ status <$> w_res w = Some 400.
Proof.
  intros Ht. unfold confirm2FA; exec. unfold enable2FASchema.
  destruct req_body; simpl; try done.
  simpl in Ht. rewrite Ht. done.
Qed.

(** C7, amended: with a body holding a string [token] and a [code] of six
    characters, [confirm2FA] answers an authenticated user by what is
    stored for them: 404 [NotSetup] without a pending secret, 401
    [InvalidCode] when the code is wrong for the secret, and 200 with
    [twoFactorEnabled] set, in one write, when it is right.  A body without
    a string [token] is answered 400 and nothing is written. *)
Theorem confirm2FA_with_token_and_code db req_user req_body token code u now :
  field "token" req_body = Some (JStr token) →
  field "code" req_body = Some (JStr code) →
  String.length (text compact code) = 6%nat →
  db !! d_id req_user = Some u →
  let w := run (confirm2FA' (Some req_user) req_body now) db in
  let verified secret := totp_verify secret (jtext (text compact code)) now in
  (∀ secret, u_twoFactorSecret u = Some secret → secret ≠ "" → verified secret = true →
     w = mkWritten (<[d_id req_user := with_twoFactorEnabled true u]> db)
                   (Some TwoFactorEnabled) [] [] None
                   [<[d_id req_user := with_twoFactorEnabled true u]> db])
  ∧ (u_twoFactorSecret u = None ∨ u_twoFactorSecret u = Some "" →
     w = mkWorld db (Some NotSetup) [] [] None)
  ∧ (∀ secret,
       u_twoFactorSecret u = Some secret → secret ≠ "" → verified secret = false →
     w = mkWorld db (Some InvalidCode) [] [] None)
  ∧ (∀ req_user' req_body' now',
       z_string compact z_any (field "token" req_body') = None →
       let w' := run (confirm2FA' req_user' req_body' now') db in
       w_db w' = db ∧ status <$> w_res w' = Some 400).
Proof.
  intros Ht Hc Hl Hu w verified.
  assert (Hp : enable2FASchema compact req_body = inr (token, text compact code)).
  { unfold enable2FASchema. destruct req_body; try done.
    rewrite Ht, Hc. simpl. unfold z_length. rewrite Hl. done. }
  assert (Hw : w = if negb (truthy (u_twoFactorSecret u))
                   then mkWorld db (Some NotSetup) [] [] None
                   else if verified (default "" (u_twoFactorSecret u))
                        then mkWritten (<[d_id req_user := with_twoFactorEnabled true u]> db)
                                       (Some TwoFactorEnabled) [] [] None
                                       [<[d_id req_user := with_twoFactorEnabled true u]> db]
                        else mkWorld db (Some InvalidCode) [] [] None).
  { subst w verified. unfold confirm2FA; exec. rewrite Hp. simpl.
    rewrite findById_lookup, Hu. simpl. rewrite orb_true_r.
    destruct (truthy (u_twoFactorSecret u)); simpl; [|done].
    destruct (totp_verify _ _ now); simpl; [|done].
    saved. }
  split_and!.
  - intros secret Hs Hne Hv. rewrite Hw, Hs. simpl.
    rewrite bool_decide_eq_false_2 by done. simpl. by rewrite Hv.
  - intros [Hs|Hs]; rewrite Hw, Hs; done.
  - intros secret Hs Hne Hv. rewrite Hw, Hs. simpl.
    rewrite bool_decide_eq_false_2 by done. simpl. by rewrite Hv.
  - intros req_user' req_body' now'. apply confirm2FA_requires_token.
Qed.

End Claims.

(** C6: Ann's signup answers 201 and mails [ann_token]; presented one second
    later, within its day, the token is refused with the response of the
    catch block and Ann stays unverified: [verifyEmail] reads [user.password]
    from a document loaded without it. *)
Theorem verifyEmail_refuses_token_of_signup :
  status <$> w_res ann_signed_up = Some 201
  ∧ verification_token <$> w_mail ann_signed_up = [Some ann_token]
  ∧ u_isEmailVerified <$> w_db ann_signed_up !! "66a1f0c2b3d4e5f6a7b8c9d1" = Some false
  ∧ let w := run (ex_verifyEmail (JObj [("token", JStr ann_token)]) 1001000)
                 (w_db ann_signed_up) in
    w_res w = Some InvalidVerificationToken
    ∧ u_isEmailVerified <$> w_db w !! "66a1f0c2b3d4e5f6a7b8c9d1" = Some false.
Proof. vm_compute. done. Qed.

(** C7, as stated, fails: Ann has a pending secret and sends the right code
    in a body [{code}]; the answer is 400 and 2FA stays off. *)
Lemma confirm2FA_code_only_refused :
  let w := run (ex_confirm2FA (Some ann_doc) (JObj [("code", jtext "123456")]) 5000000)
               ann_pending in
  ex_totp "JBSWY3DPEHPK3PXP" (jtext "123456") 5000000 = true
  ∧ u_twoFactorSecret <$> ann_pending !! "66a1f0c2b3d4e5f6a7b8c9d1" = Some (Some "JBSWY3DPEHPK3PXP")
  ∧ status <$> w_res w = Some 400
  ∧ status <$> w_res w ≠ Some 200
  ∧ u_twoFactorEnabled <$> w_db w !! "66a1f0c2b3d4e5f6a7b8c9d1" = Some false.
Proof. vm_compute. split_and!; done. Qed.

(** ** The theorems at the scenario *)

Lemma verifyEmail_rejects_after_password_change_witness :
  status <$> w_res ann_signed_up = Some 201
  ∧ run (ex_verifyEmail (JObj [("token", JStr ann_token)]) 1001000) ann_new_password
    = mkWorld ann_new_password (Some InvalidVerificationToken) [] [] None.
Proof.
  split; [by vm_compute|].
  apply (verifyEmail_rejects_after_password_change
           userSchema ex_cfg ex_compact ex_isEmail ex_hash "user" ∅ ann_body "66a1f0c2b3d4e5f6a7b8c9d1" 1000000
           ann_token (ann false false None) ann_new_password
           (mkUser "Ann" "a@x.com" "$2b$newpass99" false "user" false None)
           (JObj [("token", JStr ann_token)]) 1001000); by vm_compute.
Defined.

Lemma login_two_factor_step_up_witness :
  let w := run (ex_login ann_login 2000000) ann_enabled in
  w_cookies w = [] ∧ w_db w = ann_enabled
  ∧ w_res w = Some (mkResponse 200 (JObj [("message", jtext "2FA required");
                                          ("tempToken", JStr ann_step_up);
                                          ("twoFactorEnabled", JBool true)])).
Proof.
  destruct (login_two_factor_step_up
              userSchema ex_cfg ex_compact ex_isEmail ex_compare ann_enabled ann_login
              "a@x.com" "longpass1" "66a1f0c2b3d4e5f6a7b8c9d1" (ann true true (Some ann_secret)) 2000000)
    as (Hc & Hd & _ & Hs); [by vm_compute..|].
  destruct Hs as (_ & Hr & _); [by vm_compute|].
  split_and!; assumption.
Defined.

Lemma step_up_and_session_tokens_interchangeable_witness :
  run (ex_protect (Some [Plain "Bearer"; ann_step_up]) None 2100000) ann_enabled
  = mkWorld ann_enabled None [] []
            (Some (load userSchema default_select "66a1f0c2b3d4e5f6a7b8c9d1" (ann true true (Some ann_secret))))
  ∧ run (ex_verify2FA (JObj [("tempToken", JStr ann_session); ("code", jtext "123456")])
                      2100000) ann_enabled
    = mkWorld ann_enabled (Some (SessionOpened ex_cfg "66a1f0c2b3d4e5f6a7b8c9d1" (ann true true (Some ann_secret))
                                               2100000))
              [session_cookie ex_cfg (session_token ex_cfg "66a1f0c2b3d4e5f6a7b8c9d1" 2100000) 2100000] [] None.
Proof.
  destruct (step_up_and_session_tokens_interchangeable
              userSchema ex_cfg ex_compact ex_isEmail ex_compare ex_totp ann_enabled ann_login
              2000000
              (mkResponse 200 (JObj [("message", jtext "2FA required");
                                     ("tempToken", JStr ann_step_up);
                                     ("twoFactorEnabled", JBool true)]))
              ann_step_up)
    as (i & Hi & _ & _ & Hp & Hv); [by vm_compute..|].
  injection Hi as <-. split.
  - apply (Hp ann_enabled (ann true true (Some ann_secret)) None 2100000); by vm_compute.
  - apply (Hv ann_enabled (ann true true (Some ann_secret)) ann_secret (jtext "123456")
              2000000 2100000); by vm_compute.
Defined.

Lemma ann_enabled_invariant : two_factor_invariant ann_enabled.
Proof.
  unfold ann_enabled. intros i u [<- <-]%lookup_singleton_Some _. by eexists.
Qed.

Lemma two_factor_invariant_preserved_witness :
  two_factor_invariant ann_enabled
  ∧ two_factor_invariant (w_db (run (ex_disable2FA (Some ann_doc)) ann_enabled))
  ∧ two_factor_invariant
      (w_db (run (ex_confirm2FA (Some ann_doc)
                    (JObj [("token", jtext "x"); ("code", jtext "123456")]) 5000000)
                 ann_enabled)).
Proof.
  destruct (two_factor_invariant_preserved
              userSchema ex_cfg ex_compact ex_isEmail ex_hash ex_compare "user" ex_totp
              ann_enabled ann_enabled_invariant) as [H _].
  split_and!.
  - exact ann_enabled_invariant.
  - exact (H (Disable2FA (Some ann_doc)) 0).
  - exact (H (Confirm2FA (Some ann_doc)
                (JObj [("token", jtext "x"); ("code", jtext "123456")])) 5000000).
Defined.

Lemma login_hides_account_existence_witness :
  run (ex_login (JObj [("email", jtext "b@x.com"); ("password", jtext "longpass1")]) 2000000)
      ann_enabled
  = mkWorld ann_enabled (Some InvalidCredentials) [] [] None
  ∧ run (ex_login (JObj [("email", jtext "a@x.com"); ("password", jtext "wrongpass")]) 2000500)
        ann_enabled
    = mkWorld ann_enabled (Some InvalidCredentials) [] [] None.
Proof.
  apply (login_hides_account_existence
           userSchema ex_cfg ex_compact ex_isEmail ex_compare ann_enabled
           (JObj [("email", jtext "b@x.com"); ("password", jtext "longpass1")])
           (JObj [("email", jtext "a@x.com"); ("password", jtext "wrongpass")])
           "b@x.com" "longpass1" "a@x.com" "wrongpass" "66a1f0c2b3d4e5f6a7b8c9d1"
           (ann true true (Some ann_secret)) 2000000 2000500); by vm_compute.
Defined.

Lemma protect_rejects_witness :
  rejected (run (ex_protect None None 2100000) ann_enabled)
  ∧ rejected (run (ex_protect (Some [Plain "Bearer"; ann_step_up]) None 2300000) ann_enabled)
  ∧ rejected (run (ex_protect None (Some (Compact forged_token)) 2100000) ann_enabled)
  ∧ rejected (run (ex_protect None (Some (Compact tampered_token)) 2100000) ann_enabled)
  ∧ rejected (run (ex_protect None (Some (Compact gone_token)) 2100000) ann_enabled).
Proof.
  assert (R : ∀ authorization cookies_jwt now,
             Unacceptable ex_cfg ann_enabled now
               (request_token ex_compact authorization cookies_jwt) →
             rejected (run (ex_protect authorization cookies_jwt now) ann_enabled)).
  { intros authorization cookies_jwt now H.
    destruct (protect_rejects userSchema ex_cfg ex_compact ann_enabled
                authorization cookies_jwt now H) as (Hn & Hs & _).
    by split. }
  refine (conj _ (conj _ (conj _ (conj _ _)))); apply R.
  - apply no_token.
  - apply (expired_token ex_cfg ann_enabled 2300000 _ 2300); by vm_compute.
  - apply (invalid_signature ex_cfg ann_enabled 2100000 forged_token).
    vm_compute. intros [? _]. done.
  - apply (invalid_signature ex_cfg ann_enabled 2100000 tampered_token).
    vm_compute. intros [_ ?]. done.
  - apply (user_deleted ex_cfg ann_enabled 2100000 gone_token "66a1f0c2b3d4e5f6a7b8c9d2"); by vm_compute.
Defined.

Lemma disable2FA_then_verify2FA_fails_witness :
  let w := run (ex_disable2FA (Some ann_doc)) ann_enabled in
  w_db w = <["66a1f0c2b3d4e5f6a7b8c9d1" := ann true false None]> ann_enabled
  ∧ w_writes w = [<["66a1f0c2b3d4e5f6a7b8c9d1" := ann true false None]> ann_enabled]
  ∧ run (ex_verify2FA (JObj [("tempToken", JStr ann_step_up); ("code", jtext "123456")])
                      2100000) (w_db w)
    = mkWorld (w_db w) (Some InvalidStepUpToken) [] [] None.
Proof.
  destruct (disable2FA_then_verify2FA_fails
              userSchema ex_cfg ex_totp ann_enabled ann_doc (ann true true (Some ann_secret)))
    as (Hd & Hw & _ & _ & Hv); [by vm_compute..|].
  split; [exact Hd|]. split; [exact Hw|].
  apply (Hv _ (ann true false None) 2000000 ann_step_up (jtext "123456") 2100000);
    by vm_compute.
Defined.

Lemma verify2FA_ignores_twoFactorEnabled_witness :
  u_twoFactorEnabled <$> ann_pending !! "66a1f0c2b3d4e5f6a7b8c9d1" = Some false
  ∧ run (ex_verify2FA (JObj [("tempToken", JStr ann_step_up); ("code", jtext "123456")])
                      2100000) ann_pending
    = mkWorld ann_pending
              (Some (SessionOpened ex_cfg "66a1f0c2b3d4e5f6a7b8c9d1" (ann true false (Some ann_secret)) 2100000))
              [mkCookie "jwt" (session_token ex_cfg "66a1f0c2b3d4e5f6a7b8c9d1" 2100000)
                        (2100000 + 7 * 24 * 60 * 60 * 1000) true false] [] None.
Proof.
  split; [by vm_compute|].
  apply (verify2FA_ignores_twoFactorEnabled
           userSchema ex_cfg ex_totp ann_pending
           (JObj [("tempToken", JStr ann_step_up); ("code", jtext "123456")])
           (Some (JStr ann_step_up)) (Some (jtext "123456")) 2100000
           (issued "66a1f0c2b3d4e5f6a7b8c9d1" 300 2000000) "66a1f0c2b3d4e5f6a7b8c9d1" (ann true false (Some ann_secret)) ann_secret);
    by vm_compute.
Defined.

Lemma confirm2FA_with_token_and_code_witness :
  let w := run (ex_confirm2FA (Some ann_doc)
                  (JObj [("token", jtext "x"); ("code", jtext "123456")]) 5000000)
               ann_pending in
  w = mkWritten (<["66a1f0c2b3d4e5f6a7b8c9d1" := ann true true (Some ann_secret)]> ann_pending)
                (Some TwoFactorEnabled) [] [] None
                [<["66a1f0c2b3d4e5f6a7b8c9d1" := ann true true (Some ann_secret)]> ann_pending].
Proof.
  destruct (confirm2FA_with_token_and_code
              userSchema ex_compact ex_totp ann_pending ann_doc
              (JObj [("token", jtext "x"); ("code", jtext "123456")])
              (Plain "x") (Plain "123456") (ann true false (Some ann_secret)) 5000000)
    as (H & _); [by vm_compute..|].
  apply (H ann_secret); by vm_compute.
Defined.

(** * Further properties of the controller *)

Section Further.
Variable schema : Schema.
Variable cfg : Config.
Variable compact : Jwt → string.
Variable isEmail : string → bool.
Variable hashPassword : string → string.
Variable bcrypt_compare : string → string → bool.
Variable default_role : string.
Variable totp_verify : string → Json → Z → bool.

Abbreviation signup_ := (signup schema cfg compact isEmail hashPassword default_role).
Abbreviation signupSchema_ := (signupSchema compact isEmail).
Abbreviation verifyEmail_ := (verifyEmail schema cfg compact).
Abbreviation login_ := (login schema cfg compact isEmail bcrypt_compare).
Abbreviation loginSchema_ := (loginSchema compact isEmail).
Abbreviation setup2FA_ := (setup2FA schema).
Abbreviation verify2FA_ := (verify2FA schema cfg totp_verify).
Abbreviation confirm2FA_ := (confirm2FA schema compact totp_verify).
Abbreviation disable2FA_ := (disable2FA schema).
Abbreviation protect_ := (protect schema cfg compact).
Abbreviation handle_ :=
  (handle schema cfg compact isEmail hashPassword bcrypt_compare default_role totp_verify).

(** ** Lookups by email *)

Lemma findOne_None db email sel :
  findOne schema db email sel = None ↔ ∀ i u, db !! i = Some u → u_email u ≠ email.
Proof.
  unfold findOne. split.
  - intros H i u Hu He.
    destruct (list_find _ _) as [[n [k v]]|] eqn:E; simpl in H; [done|].
    apply list_find_None in E. rewrite Forall_forall in E.
    apply (E (i, u)); [by apply elem_of_map_to_list|done].
  - intros H.
    destruct (list_find _ _) as [[n [k v]]|] eqn:E; simpl; [|done].
    apply list_find_Some in E as (Hl & He & _).
    apply list_elem_of_lookup_2, elem_of_map_to_list in Hl. by destruct (H k v).
Qed.

(** ** Signing up *)

(** X1: a signup body that is no object, or lacks a string [name] of two
    characters, a string [email] zod takes for an address, or a string
    [password] of eight, is answered 400 with the failing fields; no user is
    stored and no mail sent. *)
Theorem signup_invalid_input db req_body newId now :
  z_string compact (z_min 2) (field "name" req_body) = None
  ∨ z_string compact isEmail (field "email" req_body) = None
  ∨ z_string compact (z_min 8) (field "password" req_body) = None →
  ∃ issues,
    issues ≠ []
    ∧ run (signup_ req_body newId now) db
      = mkWorld db (Some (mkResponse 400 (JObj [("status", jtext "failed");
                                                ("message", errors issues)])))
                [] [] None.
Proof.
  intros H.
  assert (∃ issues, issues ≠ [] ∧ signupSchema_ req_body = inl (ZodError issues))
    as (issues & Hne & Hp).
  { unfold signupSchema. destruct req_body; try (by eexists [""]).
    destruct (z_string compact (z_min 2) _) as [n|];
      destruct (z_string compact isEmail _) as [e|];
      destruct (z_string compact (z_min 8) _) as [p|]; simpl;
      try (eexists; split; [|reflexivity]; done).
    by destruct H as [?|[?|?]]. }
  exists issues. split; [done|].
  unfold signup; exec. rewrite Hp. done.
Qed.

(** X2: a well-formed signup naming an email some stored user has is
    answered 400 [Email is already registered]; nothing is stored and no
    mail is sent. *)
Theorem signup_duplicate_email db req_body newId now name email pw i u :
  signupSchema_ req_body = inr (name, email, pw) →
  db !! i = Some u → u_email u = email →
  run (signup_ req_body newId now) db
  = mkWorld db (Some (mkResponse 400 (JObj [("success", JBool false);
                                            ("message", jtext "Email is already registered")])))
            [] [] None.
Proof.
  intros Hp Hu He. unfold signup; exec. rewrite Hp. simpl.
  destruct (findOne schema db email default_select) eqn:Hf; [done|].
  rewrite findOne_None in Hf. by destruct (Hf i u).
Qed.

Lemma signupSchema_inr req_body name email pw :
  signupSchema_ req_body = inr (name, email, pw) →
  (2 ≤ String.length name)%nat ∧ isEmail email = true ∧ (8 ≤ String.length pw)%nat.
Proof.
  unfold signupSchema, z_string, z_min. destruct req_body; try done.
  destruct (field "name" _) as [[| | |n| |]|]; try done.
  case_bool_decide; [|done].
  destruct (field "email" _) as [[| | |e| |]|]; try done.
  destruct (isEmail (text compact e)) eqn:He; [|done].
  destruct (field "password" _) as [[| | |p| |]|]; try done.
  case_bool_decide; [|done].
  intros [= <- <- <-]. done.
Qed.

(** X3: a well-formed signup with an email no stored user has, neither as
    typed nor as the schema's setter leaves it, on a free id and with a
    signing key that is not empty, stores in one write the user with the
    email as the setter leaves it, under the hash of the password,
    unverified, with the default role and 2FA off; it mails the stored
    address, not the typed one, one link, whose token is signed for the new
    id with the secret followed by the hash and lasts a day; it answers
    201 and sets no cookie. *)
Theorem signup_creates_unverified_user db req_body newId now name email pw :
  signupSchema_ req_body = inr (name, email, pw) →
  (∀ i u, db !! i = Some u → u_email u ≠ email) →
  (∀ i u, db !! i = Some u → u_email u ≠ email_setter schema email) →
  db !! newId = None →
  jwt_secret cfg +:+ hashPassword pw ≠ "" →
  run (signup_ req_body newId now) db
  = mkWritten
      (<[newId := mkUser name (email_setter schema email) (hashPassword pw) false default_role
                         false None]> db)
      (Some (mkResponse 201 (JObj [("status", jtext "sucess");
                                   ("message", jtext "Verification email sent")])))
      []
      [mkEmail (email_setter schema email) "Verify Your Email"
               [Plain "Please click <a href="; Plain dquote; Plain (frontend_url cfg);
                Plain "/verify-email?token=";
                verification_token_for cfg hashPassword newId pw now;
                Plain dquote; Plain "> here</a> to verify your email"]]
      None
      [<[newId := mkUser name (email_setter schema email) (hashPassword pw) false default_role
                         false None]> db].
Proof.
  intros Hp Hfree Hfree' Hid Hk. unfold signup; exec. rewrite Hp. simpl.
  rewrite (proj2 (findOne_None db email default_select) Hfree).
  unfold User_create. simpl. rewrite Hid.
  rewrite (proj2 (findOne_None db _ default_select) Hfree'). simpl.
  unfold js_concat. simpl. rewrite (sign_total _ _ _ _ Hk). done.
Qed.

Lemma signup_writes_parsed db req_body newId now :
  let w := run (signup_ req_body newId now) db in
  w_db w = db
  ∨ ∃ name email pw,
      signupSchema_ req_body = inr (name, email, pw) ∧ db !! newId = None
      ∧ (∀ i u, db !! i = Some u → u_email u ≠ email_setter schema email)
      ∧ w_db w = <[newId := created hashPassword default_role name
                                    (email_setter schema email) pw]> db.
Proof.
  unfold signup; exec.
  destruct (signupSchema_ req_body) as [e|[[name email] pw]]; simpl.
  { destruct e; simpl; auto. }
  destruct (findOne schema db email default_select); simpl; [auto|].
  unfold User_create. simpl.
  destruct (db !! newId) eqn:Hn; simpl; [auto|].
  destruct (findOne schema db (email_setter schema email) default_select) eqn:Hf; simpl;
    [auto|].
  right. exists name, email, pw. split_and!; [done..|exact (proj1 (findOne_None _ _ _) Hf)|].
  destruct (jwt.sign newId _ 86400 now) as [e|token]; simpl; [|done].
  destruct e; done.
Qed.

(** X4: whatever the body, signup changes no stored user, and the only user
    it can add is one under the new id, unverified, with the default role,
    2FA off, no secret, and the hash of a password of eight characters or
    more: no field of the body reaches the role or the flags. *)
Theorem signup_adds_one_plain_user db req_body newId now :
  let w := run (signup_ req_body newId now) db in
  (∀ i u, db !! i = Some u → w_db w !! i = Some u)
  ∧ (∀ i u, db !! i = None → w_db w !! i = Some u →
       i = newId ∧ u_isEmailVerified u = false ∧ u_role u = default_role
       ∧ u_twoFactorEnabled u = false ∧ u_twoFactorSecret u = None
       ∧ ∃ pw, u_password u = hashPassword pw ∧ (8 ≤ String.length pw)%nat).
Proof.
  intros w.
  destruct (signup_writes_parsed db req_body newId now)
    as [Hw|(name & email & pw & Hp & Hn & _ & Hw)]; fold w in Hw; rewrite Hw.
  - split; [done|]. intros i u Hi Hu. congruence.
  - apply signupSchema_inr in Hp as (_ & _ & Hl). split.
    + intros i u Hu. rewrite lookup_insert_ne; [done|]. intros <-. congruence.
    + intros i u Hi. rewrite lookup_insert. case_decide; [|congruence].
      intros [= <-]. subst i. split_and!; try done. by exists pw.
Qed.
(** ** Logging in *)

(** X5: a login with the right password for a user whose email is not
    verified is answered 401 [Please verify your email to login]; no token is
    issued and no cookie set, with or without 2FA. *)
Theorem login_unverified_refused db req_body email pw i u now :
  loginSchema_ req_body = inr (email, pw) →
  findOne schema db email (select_plus path_password)
  = Some (load schema (select_plus path_password) i u) →
  bcrypt_compare pw (u_password u) = true →
  u_isEmailVerified u = false →
  run (login_ req_body now) db
  = mkWorld db (Some (mkResponse 401 (JObj [("message",
                                             jtext "Please verify your email to login")])))
            [] [] None.
Proof.
  intros Hp Hf Hc Hv. unfold login; exec.
  rewrite Hp. simpl. rewrite Hf, password_selected. simpl.
  rewrite Hc. simpl. unfold load. simpl. rewrite Hv. done.
Qed.

Lemma login_without_2FA db req_body email pw i u now :
  loginSchema_ req_body = inr (email, pw) →
  findOne schema db email (select_plus path_password)
  = Some (load schema (select_plus path_password) i u) →
  bcrypt_compare pw (u_password u) = true →
  u_isEmailVerified u = true →
  u_twoFactorEnabled u = false →
  jwt_secret cfg ≠ "" →
  run (login_ req_body now) db
  = mkWorld db
      (Some (mkResponse 200
               (JObj [("status", jtext "success");
                      ("message", jtext "Login successfull");
                      ("token", JStr (session_token cfg i now));
                      ("user", JObj [("id", jtext i); ("name", jtext (u_name u));
                                     ("email", jtext (u_email u));
                                     ("role", jtext (u_role u))])])))
      [session_cookie cfg (session_token cfg i now) now]
      [] None.
Proof.
  intros Hp Hf Hc Hv He Hs. unfold login; exec.
  rewrite Hp. simpl. rewrite Hf, password_selected. simpl.
  rewrite Hc. simpl. unfold load. simpl. rewrite Hv, He. simpl.
  unfold signToken. rewrite (sign_total _ _ _ _ Hs). done.
Qed.

(** X6: a login with the right password for a verified user without 2FA,
    under a configured secret, answers 200 with the session token and the
    user's id, name, email and role, and nothing else of the user; it sets
    that token as the [jwt] cookie, http-only, expiring [COOKIE_EXPIRES_IN]
    days after the request, secure exactly in production; the store is left
    as it is. *)
Theorem login_opens_session db req_body email pw i u now :
  loginSchema_ req_body = inr (email, pw) →
  findOne schema db email (select_plus path_password)
  = Some (load schema (select_plus path_password) i u) →
  bcrypt_compare pw (u_password u) = true →
  u_isEmailVerified u = true →
  u_twoFactorEnabled u = false →
  jwt_secret cfg ≠ "" →
  run (login_ req_body now) db
  = mkWorld db
      (Some (mkResponse 200
               (JObj [("status", jtext "success");
                      ("message", jtext "Login successfull");
                      ("token", JStr (session_token cfg i now));
                      ("user", JObj [("id", jtext i); ("name", jtext (u_name u));
                                     ("email", jtext (u_email u));
                                     ("role", jtext (u_role u))])])))
      [mkCookie "jwt" (session_token cfg i now)
                (now + COOKIE_EXPIRES_IN cfg * 24 * 60 * 60 * 1000) true
                (bool_decide (NODE_ENV cfg = "production"))]
      [] None.
Proof.
  intros Hp Hf Hc Hv He Hs.
  by rewrite (login_without_2FA db req_body email pw i u now).
Qed.

Lemma verify_expired id key expiresIn now t now' :
  jwt.sign id key expiresIn now = inr t →
  now `div` 1000 + expiresIn ≤ now' `div` 1000 →
  jwt.verify (Some (JStr t)) key now' = inl TokenExpiredError.
Proof.
  intros [Hk ->]%sign_inr Hle. unfold jwt.verify.
  destruct (decide (key = "")); [done|]. simpl.
  rewrite bool_decide_eq_true_2 by done. simpl.
  by rewrite bool_decide_eq_true_2.
Qed.

(** The gate answers 401 [Invalid token] to a token that does not verify. *)
Lemma protect_invalid_token db authorization cookies_jwt now t e :
  request_token compact authorization cookies_jwt = Some t →
  str_truthy t = true →
  jwt.verify (Some (JStr t)) (jwt_secret cfg) now = inl e →
  run (protect_ authorization cookies_jwt now) db
  = mkWorld db (Some (mkResponse 401 (JObj [("message", jtext "Invalid token")]))) [] [] None.
Proof.
  intros Ht Hy Hv. unfold protect; exec. rewrite Ht. simpl. rewrite Hy. simpl.
  rewrite Hv. done.
Qed.

(** X7: the cookie such a login sets passes the gate, for the user as stored
    at the time of the request, at every clock before [JWT_EXPIRES_IN]
    seconds after the login, and is answered 401 from then on. *)
Theorem login_session_lasts_until_expiry db req_body email pw i u now :
  loginSchema_ req_body = inr (email, pw) →
  findOne schema db email (select_plus path_password)
  = Some (load schema (select_plus path_password) i u) →
  bcrypt_compare pw (u_password u) = true →
  u_isEmailVerified u = true →
  u_twoFactorEnabled u = false →
  jwt_secret cfg ≠ "" →
  ∃ c, w_cookies (run (login_ req_body now) db) = [c]
       ∧ ∀ db' u' now',
           db' !! i = Some u' →
           (now' `div` 1000 < now `div` 1000 + jwt_expiresIn cfg →
            run (protect_ None (Some (ck_value c)) now') db'
            = mkWorld db' None [] [] (Some (load schema default_select i u')))
           ∧ (now `div` 1000 + jwt_expiresIn cfg ≤ now' `div` 1000 →
              run (protect_ None (Some (ck_value c)) now') db'
              = mkWorld db' (Some (mkResponse 401 (JObj [("message", jtext "Invalid token")])))
                        [] [] None).
Proof.
  intros Hp Hf Hc Hv He Hs.
  rewrite (login_without_2FA db req_body email pw i u now Hp Hf Hc Hv He Hs). simpl.
  eexists. split; [done|]. simpl.
  intros db' u' now' Hu'.
  pose proof (sign_total i _ (jwt_expiresIn cfg) now Hs) as Hsign. fold (session_token cfg i now) in Hsign.
  split; intros Ht.
  - eapply protect_accepts; [done|by eapply verify_sign|done..].
  - eapply protect_invalid_token; [done..|by eapply verify_expired].
Qed.

(** X8: a login body that is no object, or lacks a string [email] zod takes
    for an address or a string [password] of eight characters, is answered
    400 [Validation failed] with the failing fields, whatever the store
    holds. *)
Theorem login_invalid_input db req_body now :
  z_string compact isEmail (field "email" req_body) = None
  ∨ z_string compact (z_min 8) (field "password" req_body) = None →
  ∃ issues,
    issues ≠ []
    ∧ run (login_ req_body now) db
      = mkWorld db (Some (mkResponse 400 (JObj [("message", jtext "Validation failed");
                                                ("errors", errors issues)])))
                [] [] None.
Proof.
  intros H.
  assert (∃ issues, issues ≠ [] ∧ loginSchema_ req_body = inl (ZodError issues))
    as (issues & Hne & Hp).
  { unfold loginSchema. destruct req_body; try (by eexists [""]).
    destruct (z_string compact isEmail _) as [e|];
      destruct (z_string compact (z_min 8) _) as [p|]; simpl;
      try (eexists; split; [|reflexivity]; done).
    by destruct H. }
  exists issues. split; [done|].
  unfold login; exec. rewrite Hp. done.
Qed.

(** ** The gate, the role check and logging out *)

(** When the gate calls the next handler, the request carried a token that
    verifies under the secret, and [req.user] is the user it names, read
    from the store with the default projection. *)
Lemma protect_next db authorization cookies_jwt now d :
  w_next (run (protect_ authorization cookies_jwt now) db) = Some d →
  ∃ t c i u,
    request_token compact authorization cookies_jwt = Some t
    ∧ jwt.verify (Some (JStr t)) (jwt_secret cfg) now = inr c
    ∧ c_id c = Some i ∧ db !! i = Some u
    ∧ d = load schema default_select i u
    ∧ w_res (run (protect_ authorization cookies_jwt now) db) = None.
Proof.
  unfold protect; exec.
  destruct (request_token compact authorization cookies_jwt) as [t|]; simpl; [|done].
  destruct (str_truthy t); simpl; [|done].
  destruct (jwt.verify _ _ now) as [e|c] eqn:Hv; simpl; [done|].
  destruct (c_id c) as [i|] eqn:Hi; [|done].
  rewrite findById_lookup.
  destruct (db !! i) as [u|] eqn:Hu; simpl; [|by destruct (valid_id schema i)].
  intros [= <-]. by exists t, c, i, u.
Qed.

(** X9: logout answers 200 and overwrites the [jwt] cookie with an empty
    one that expired at the epoch; a request carrying that cookie and no
    header is answered 401 as not logged in.  Nothing is revoked: the store
    is untouched, and a token that verified before the logout passes the
    gate after it as before. *)
Theorem logout_clears_the_cookie_only db :
  run logout db
  = mkWorld db (Some (mkResponse 200 (JObj [("status", jtext "success");
                                            ("message", jtext "Logged out successfully")])))
            [mkCookie "jwt" (Plain "") 0 true false] [] None
  ∧ (∀ c now db', c ∈ w_cookies (run logout db) →
       run (protect_ None (Some (ck_value c)) now) db' = mkWorld db' (Some NotLoggedIn) [] [] None)
  ∧ (∀ authorization cookies_jwt now,
       run (protect_ authorization cookies_jwt now) (w_db (run logout db))
       = run (protect_ authorization cookies_jwt now) db).
Proof.
  split_and!; [done| |done].
  intros c now db' Hc. simpl in Hc. apply list_elem_of_singleton in Hc as ->. done.
Qed.

(** X10: the role check reads the role from [req.user], which the gate
    loaded from the store at this request: a request the gate passed goes
    through the check exactly when the role stored now is among the allowed
    ones, and is answered 403 otherwise; the token carries no role. *)
Theorem restrictTo_uses_stored_role db authorization cookies_jwt now d roles :
  w_next (run (protect_ authorization cookies_jwt now) db) = Some d →
  ∃ i u, db !! i = Some u ∧ d_id d = i
    ∧ run (restrictTo roles (Some d)) db
      = if bool_decide (u_role u ∈ roles)
        then mkWorld db None [] [] (Some d)
        else mkWorld db (Some (mkResponse 403
                                 (JObj [("message",
                                         jtext "You do not have permission to perform this action")])))
                     [] [] None.
Proof.
  intros (t & c & i & u & _ & _ & _ & Hu & -> & _)%protect_next.
  exists i, u. split_and!; [done..|].
  unfold restrictTo; exec. simpl. by case_bool_decide.
Qed.

(** X11: a header that starts with [Bearer] decides alone which token the
    gate reads: the [jwt] cookie is then not looked at, so that a header
    [Bearer] without a token is answered 401 as not logged in even beside a
    good cookie; any other header is as good as none. *)
Theorem bearer_header_shadows_cookie db first rest cookies_jwt now :
  (String.prefix "Bearer" (text compact first) = true →
   run (protect_ (Some (first :: rest)) cookies_jwt now) db
   = run (protect_ (Some (first :: rest)) None now) db
   ∧ (rest = [] →
      run (protect_ (Some (first :: rest)) cookies_jwt now) db
      = mkWorld db (Some NotLoggedIn) [] [] None))
  ∧ (String.prefix "Bearer" (text compact first) = false →
     run (protect_ (Some (first :: rest)) cookies_jwt now) db
     = run (protect_ None cookies_jwt now) db).
Proof.
  split; intros Hb.
  - split; [|intros ->]; unfold protect, request_token; exec; simpl; by rewrite Hb.
  - unfold protect, request_token; exec. simpl. by rewrite Hb.
Qed.

(** ** Enrolling in 2FA *)

(** X12: for a stored user with 2FA off, [setup2FA] stores the fresh secret
    in place of any pending one and returns it; [confirm2FA] with a code
    right for that secret then turns 2FA on, keeping the secret; from then
    on [setup2FA] is answered 400 [2FA already enabled] and leaves the secret
    alone. *)
Theorem enrolment_runs_once db req_user u base32 otpauth_url req_body token code now :
  db !! d_id req_user = Some u →
  u_twoFactorEnabled u = false →
  base32 ≠ "" →
  field "token" req_body = Some (JStr token) →
  field "code" req_body = Some (JStr code) →
  String.length (text compact code) = 6%nat →
  totp_verify base32 (jtext (text compact code)) now = true →
  let i := d_id req_user in
  let w1 := run (setup2FA_ (Some req_user) base32 otpauth_url) db in
  let w2 := run (confirm2FA_ (Some req_user) req_body now) (w_db w1) in
  w1 = mkWritten (<[i := with_twoFactorSecret (Some base32) u]> db)
                 (Some (mkResponse 200 (JObj [("secret", jtext base32);
                                              ("otpauthURL", jtext otpauth_url)])))
                 [] [] None
                 [<[i := with_twoFactorSecret (Some base32) u]> db]
  ∧ w2 = mkWritten
           (<[i := with_twoFactorEnabled true (with_twoFactorSecret (Some base32) u)]> db)
           (Some TwoFactorEnabled) [] [] None
           [<[i := with_twoFactorEnabled true (with_twoFactorSecret (Some base32) u)]> db]
  ∧ ∀ base32' otpauth_url',
      run (setup2FA_ (Some req_user) base32' otpauth_url') (w_db w2)
      = mkWorld (w_db w2) (Some (mkResponse 400 (JObj [("message", jtext "2FA already enabled")])))
                [] [] None.
Proof.
  intros Hu He Hne Ht Hc Hl Hv i w1 w2.
  assert (Hp : enable2FASchema compact req_body = inr (token, text compact code)).
  { unfold enable2FASchema. destruct req_body; try done.
    rewrite Ht, Hc. simpl. unfold z_length. rewrite Hl. done. }
  assert (H1 : w1 = mkWritten (<[i := with_twoFactorSecret (Some base32) u]> db)
                 (Some (mkResponse 200 (JObj [("secret", jtext base32);
                                              ("otpauthURL", jtext otpauth_url)])))
                 [] [] None
                 [<[i := with_twoFactorSecret (Some base32) u]> db]).
  { subst w1. unfold setup2FA; exec. simpl. rewrite findById_lookup, Hu. simpl.
    unfold load at 1. simpl. rewrite He. simpl. saved. }
  assert (H2 : w2 = mkWritten
                      (<[i := with_twoFactorEnabled true
                                (with_twoFactorSecret (Some base32) u)]> db)
                      (Some TwoFactorEnabled) [] [] None
                      [<[i := with_twoFactorEnabled true
                                (with_twoFactorSecret (Some base32) u)]> db]).
  { subst w2. rewrite H1. simpl. unfold confirm2FA; exec. rewrite Hp. simpl.
    rewrite findById_lookup, lookup_insert_eq. simpl. rewrite orb_true_r. simpl.
    rewrite bool_decide_eq_false_2 by done. simpl. rewrite Hv. simpl.
    erewrite save_insert; [by rewrite insert_insert_eq|apply lookup_insert_eq|done..]. }
  split_and!; [done..|].
  intros base32' otpauth_url'. rewrite H2. simpl.
  unfold setup2FA; exec. simpl. rewrite findById_lookup, lookup_insert_eq. done.
Qed.

(** X13: for a verified user with 2FA on and a stored secret, a login with
    the right password hands out a token with which [verify2FA], given a
    right code, opens the session at every clock less than 300 seconds after
    the login; from then on the token is answered 401, whatever the code. *)
Theorem two_step_login db req_body email pw i u secret now :
  loginSchema_ req_body = inr (email, pw) →
  findOne schema db email (select_plus path_password)
  = Some (load schema (select_plus path_password) i u) →
  db !! i = Some u →
  bcrypt_compare pw (u_password u) = true →
  u_isEmailVerified u = true →
  u_twoFactorEnabled u = true →
  u_twoFactorSecret u = Some secret → secret ≠ "" →
  jwt_secret cfg ≠ "" →
  ∃ tempToken,
    field "tempToken" <$> (body <$> w_res (run (login_ req_body now) db))
    = Some (Some (JStr tempToken))
    ∧ ∀ code now',
        let w := run (verify2FA_ (JObj [("tempToken", JStr tempToken); ("code", code)]) now')
                     db in
        (now' `div` 1000 < now `div` 1000 + 300 →
         totp_verify secret code now' = true →
         w = mkWorld db (Some (SessionOpened cfg i u now'))
                     [session_cookie cfg (session_token cfg i now') now'] [] None)
        ∧ (now `div` 1000 + 300 ≤ now' `div` 1000 →
           w = mkWorld db (Some (mkResponse 401 (JObj [("message",
                                                       jtext "Invalid or expired token")])))
                       [] [] None).
Proof.
  intros Hp Hf Hu Hc Hv He Hs Hne Hk.
  pose proof (sign_total i _ 300 now Hk) as Hsign.
  eexists. split.
  - unfold login; exec. rewrite Hp. simpl. rewrite Hf, password_selected. simpl.
    rewrite Hc. simpl. unfold load. simpl. rewrite Hv, He. simpl.
    rewrite Hsign. simpl. reflexivity.
  - intros code now' w. subst w. split.
    + intros Hlt Ht.
      eapply verify2FA_accepts; [done|simpl; by eapply verify_sign|done..].
    + intros Hle. eapply verify2FA_invalid_token; [done|].
      simpl. by eapply verify_expired.
Qed.

(** X14: [verify2FA] answers 401 and opens no session when the request has
    no body or no [tempToken], and when the token is good and the user has a
    secret but the code is not right for it. *)
Theorem verify2FA_refusals db now :
  (∀ req_body, req_body = JUndefined ∨ field "tempToken" req_body = None →
     run (verify2FA_ req_body now) db
     = mkWorld db (Some (mkResponse 401 (JObj [("message", jtext "Invalid or expired token")])))
               [] [] None)
  ∧ (∀ req_body tempToken code c i u secret,
       verify2FA_body req_body = inr (tempToken, code) →
       jwt.verify tempToken (jwt_secret cfg) now = inr c →
       c_id c = Some i → db !! i = Some u →
       u_twoFactorSecret u = Some secret → secret ≠ "" →
       totp_verify secret (default JUndefined code) now = false →
       run (verify2FA_ req_body now) db
       = mkWorld db (Some (mkResponse 401 (JObj [("message", jtext "Invalid 2fA code")])))
                 [] [] None).
Proof.
  split.
  - intros req_body [->|Hn]; unfold verify2FA; exec; [done|].
    destruct req_body; simpl; try done. simpl in Hn. rewrite Hn. done.
  - intros req_body tempToken code c i u secret Hb Hv Hi Hu Hs Hne Ht.
    unfold verify2FA; exec.
    rewrite Hb. simpl. rewrite Hv. simpl. rewrite Hi, findById_lookup, Hu. simpl.
    rewrite orb_true_r, Hs. simpl. rewrite bool_decide_eq_false_2 by done. simpl.
    rewrite Ht. done.
Qed.

(** X15: [confirm2FA] validates the body before it looks at the user: a
    [code] that is missing, is not a string (a number, say) or has not
    exactly six characters is answered 400 with the failing fields, and
    nothing is written, whoever asks and whatever the [token]. *)
Theorem confirm2FA_invalid_code db req_user req_body now :
  z_string compact (z_length 6) (field "code" req_body) = None →
  ∃ issues,
    issues ≠ []
    ∧ run (confirm2FA_ req_user req_body now) db
      = mkWorld db (Some (mkResponse 400 (JObj [("message", jtext "Validation failed");
                                                ("errors", errors issues)])))
                [] [] None.
Proof.
  intros Hc.
  assert (∃ issues, issues ≠ [] ∧ enable2FASchema compact req_body = inl (ZodError issues))
    as (issues & Hne & Hp).
  { unfold enable2FASchema. destruct req_body; try (by eexists [""]).
    rewrite Hc. destruct (z_string compact z_any _); simpl;
      (eexists; split; [|reflexivity]; done). }
  exists issues. split; [done|].
  unfold confirm2FA; exec. by rewrite Hp.
Qed.

(** X16: [disable2FA] for a user whose 2FA is not on is answered 400 [2FA
    not enabled] and writes nothing: a secret stored by [setup2FA] and never
    confirmed stays, and [verify2FA] goes on opening sessions with it. *)
Theorem disable2FA_keeps_pending_secret db req_user u secret :
  db !! d_id req_user = Some u →
  u_twoFactorEnabled u = false →
  u_twoFactorSecret u = Some secret → secret ≠ "" →
  let w := run (disable2FA_ (Some req_user)) db in
  w = mkWorld db (Some (mkResponse 400 (JObj [("message", jtext "2FA not enabled")]))) [] [] None
  ∧ ∀ req_body tempToken code c now,
      verify2FA_body req_body = inr (tempToken, code) →
      jwt.verify tempToken (jwt_secret cfg) now = inr c →
      c_id c = Some (d_id req_user) →
      totp_verify secret (default JUndefined code) now = true →
      run (verify2FA_ req_body now) (w_db w)
      = mkWorld db (Some (SessionOpened cfg (d_id req_user) u now))
                [session_cookie cfg (session_token cfg (d_id req_user) now) now] [] None.
Proof.
  intros Hu He Hs Hne w.
  assert (Hw : w = mkWorld db (Some (mkResponse 400 (JObj [("message",
                                                            jtext "2FA not enabled")])))
                           [] [] None).
  { subst w. unfold disable2FA; exec. simpl. rewrite findById_lookup, Hu. simpl.
    unfold load. simpl. by rewrite He. }
  split; [done|]. rewrite Hw. simpl.
  intros req_body tempToken code c now Hb Hv Hi Ht.
  by eapply verify2FA_accepts.
Qed.

(** X17: the handlers behind the gate take the user's id from [req.user]
    and read the user again: when the store no longer has that id they
    answer 404, the id being one the gate loaded and so an [_id]; were it a
    string that does not cast to an [_id], the query would throw and they
    would answer 500; and when no gate set [req.user] they answer 500.
    In every case nothing is written. *)
Theorem handlers_without_their_user db base32 otpauth_url req_body token code now :
  enable2FASchema compact req_body = inr (token, code) →
  (∀ req_user, db !! d_id req_user = None →
     if valid_id schema (d_id req_user) then
       run (setup2FA_ (Some req_user) base32 otpauth_url) db
       = mkWorld db (Some (mkResponse 404 (JObj [("message", jtext "User not found")])))
                 [] [] None
       ∧ run (confirm2FA_ (Some req_user) req_body now) db
         = mkWorld db (Some NotSetup) [] [] None
       ∧ run (disable2FA_ (Some req_user)) db
         = mkWorld db (Some (mkResponse 404 (JObj [("message", jtext "User not found")])))
                   [] [] None
     else
       run (setup2FA_ (Some req_user) base32 otpauth_url) db
       = mkWorld db (Some (mkResponse 500 (JObj [("message", jtext "Something went wrong")])))
                 [] [] None
       ∧ run (confirm2FA_ (Some req_user) req_body now) db
         = mkWorld db (Some (mkResponse 500 (JObj [("message", jtext "Something went wrong")])))
                   [] [] None
       ∧ (let w := run (disable2FA_ (Some req_user)) db in
          status <$> w_res w = Some 500
          ∧ field "message" <$> (body <$> w_res w) = Some (Some (jtext "Something went wrong"))
          ∧ w_db w = db ∧ w_writes w = [] ∧ w_cookies w = []))
  ∧ run (setup2FA_ None base32 otpauth_url) db
    = mkWorld db (Some (mkResponse 500 (JObj [("message", jtext "Something went wrong")])))
              [] [] None
  ∧ run (confirm2FA_ None req_body now) db
    = mkWorld db (Some (mkResponse 500 (JObj [("message", jtext "Something went wrong")])))
              [] [] None
  ∧ run (disable2FA_ None) db
    = mkWorld db (Some (mkResponse 500 (JObj [("message", jtext "Something went wrong");
                                              ("error", JObj [])])))
              [] [] None.
Proof.
  intros Hp. split_and!; [|done| |done].
  - intros req_user Hn.
    destruct (valid_id schema (d_id req_user)) eqn:Hvalid; split_and!.
    all: unfold setup2FA, confirm2FA, disable2FA; exec; rewrite ?Hp; simpl.
    all: by rewrite findById_lookup, Hn, Hvalid.
  - unfold confirm2FA; exec. by rewrite Hp.
Qed.

(** ** Verifying an email *)


(** ** What the handlers never do *)

(** Splits on every test a handler makes. *)
Ltac branches :=
  repeat (simpl;
          match goal with
          | |- context [match ?x with _ => _ end] =>
              lazymatch x with
              | context [match _ with _ => _ end] => fail
              | _ => destruct x eqn:?
              end
          end).

Lemma login_effects db req_body now :
  let w := run (login_ req_body now) db in
  w_mail w = [] ∧ w_next w = None ∧ is_Some (w_res w)
  ∧ (w_cookies w = []
     ∨ ∃ i, is_Some (db !! i)
            ∧ w_cookies w = [session_cookie cfg (session_token cfg i now) now]).
Proof.
  unfold login; exec. branches; split_and!; eauto.
  right.
  match goal with H : findOne _ _ _ _ = Some _ |- _ =>
    apply findOne_Some in H as (i & u & Hu & _ & ->) end.
  match goal with H : signToken _ _ _ = inr _ |- _ => apply sign_inr in H as [_ ->] end.
  exists i. eauto.
Qed.

Lemma verify2FA_effects db req_body now :
  let w := run (verify2FA_ req_body now) db in
  w_mail w = [] ∧ w_next w = None ∧ is_Some (w_res w)
  ∧ (w_cookies w = []
     ∨ ∃ i, is_Some (db !! i)
            ∧ w_cookies w = [session_cookie cfg (session_token cfg i now) now]).
Proof.
  unfold verify2FA; exec. branches; split_and!; eauto.
  right.
  match goal with H : findById _ _ ?o _ = inr (Some _) |- _ =>
    destruct o as [i|]; [|done]; rewrite findById_lookup in H;
    destruct (db !! i) as [u|] eqn:Hu; [|by destruct (valid_id schema i)];
    injection H as <- end.
  match goal with H : signToken _ _ _ = inr _ |- _ => apply sign_inr in H as [_ ->] end.
  exists i. rewrite Hu. eauto.
Qed.

Lemma signup_effects db req_body newId now :
  let w := run (signup_ req_body newId now) db in
  w_cookies w = [] ∧ w_next w = None ∧ is_Some (w_res w)
  ∧ (w_mail w = []
     ∨ ∃ name email pw,
         signupSchema_ req_body = inr (name, email, pw)
         ∧ w_db w !! newId
           = Some (created hashPassword default_role name (email_setter schema email) pw)
         ∧ w_mail w
           = [verification_mail cfg (email_setter schema email)
                (verification_token_for cfg hashPassword newId pw now)]).
Proof.
  unfold signup; exec. unfold User_create.
  destruct (signupSchema_ req_body) as [e|[[name email] pw]] eqn:Hp; simpl.
  { destruct e; simpl; split_and!; eauto. }
  destruct (findOne schema db email default_select); simpl; [split_and!; eauto|].
  destruct (db !! newId); simpl; [split_and!; eauto|].
  destruct (findOne schema db (email_setter schema email) default_select); simpl;
    [split_and!; eauto|].
  destruct (jwt.sign newId _ 86400 now) as [e|token] eqn:Hs; simpl.
  { destruct e; simpl; split_and!; eauto. }
  split_and!; eauto. right. exists name, email, pw.
  split_and!; [done|by rewrite lookup_insert_eq|].
  apply sign_inr in Hs as [_ ->]. done.
Qed.

Lemma verifyEmail_quiet db req_query now : quiet (run (verifyEmail_ req_query now) db).
Proof. unfold quiet, verifyEmail; exec. branches; split_and!; eauto. Qed.

Lemma setup2FA_quiet db req_user base32 otpauth_url :
  quiet (run (setup2FA_ req_user base32 otpauth_url) db).
Proof. unfold quiet, setup2FA; exec. branches; split_and!; eauto. Qed.

Lemma confirm2FA_quiet db req_user req_body now :
  quiet (run (confirm2FA_ req_user req_body now) db).
Proof. unfold quiet, confirm2FA; exec. branches; split_and!; eauto. Qed.

Lemma disable2FA_quiet db req_user : quiet (run (disable2FA_ req_user) db).
Proof. unfold quiet, disable2FA; exec. branches; split_and!; eauto. Qed.

Lemma protect_effects db authorization cookies_jwt now :
  let w := run (protect_ authorization cookies_jwt now) db in
  w_cookies w = [] ∧ w_mail w = []
  ∧ (is_Some (w_res w) ∧ w_next w = None ∨ w_res w = None ∧ is_Some (w_next w)).
Proof. unfold protect; exec. branches; split_and!; eauto. Qed.

Lemma restrictTo_effects db roles req_user :
  let w := run (restrictTo roles req_user) db in
  w_cookies w = [] ∧ w_mail w = [] ∧ (w_res w = None ∨ w_next w = None).
Proof. unfold restrictTo; exec. branches; split_and!; eauto. Qed.

(** X19: the only cookies the controller ever sets are named [jwt] and are
    http-only: the empty one of logout, and the session cookie of login and
    [verify2FA], whose value is a session token for a stored user issued at
    this request. *)
Theorem only_session_cookies r now db c :
  c ∈ w_cookies (run (handle_ r now) db) →
  ck_name c = "jwt" ∧ ck_httpOnly c = true
  ∧ (r = Logout ∧ c = mkCookie "jwt" (Plain "") 0 true false
     ∨ (∃ req_body, r = Login req_body ∨ r = Verify2FA req_body)
       ∧ ∃ i, is_Some (db !! i) ∧ c = session_cookie cfg (session_token cfg i now) now).
Proof.
  destruct r; simpl.
  - destruct (signup_effects db req_body newId now) as (-> & _). by intros ?%elem_of_nil.
  - destruct (verifyEmail_quiet db req_query now) as (-> & _). by intros ?%elem_of_nil.
  - destruct (login_effects db req_body now) as (_ & _ & _ & [->|(i & Hi & ->)]).
    + by intros ?%elem_of_nil.
    + intros ->%list_elem_of_singleton. split_and!; [done..|]. right. eauto 6.
  - destruct (setup2FA_quiet db req_user base32 otpauth_url) as (-> & _).
    by intros ?%elem_of_nil.
  - destruct (verify2FA_effects db req_body now) as (_ & _ & _ & [->|(i & Hi & ->)]).
    + by intros ?%elem_of_nil.
    + intros ->%list_elem_of_singleton. split_and!; [done..|]. right. eauto 6.
  - destruct (confirm2FA_quiet db req_user req_body now) as (-> & _).
    by intros ?%elem_of_nil.
  - destruct (disable2FA_quiet db req_user) as (-> & _). by intros ?%elem_of_nil.
  - intros ->%list_elem_of_singleton. split_and!; [done..|]. by left.
  - destruct (protect_effects db authorization cookies_jwt now) as (-> & _).
    by intros ?%elem_of_nil.
  - destruct (restrictTo_effects db roles req_user) as (-> & _). by intros ?%elem_of_nil.
Qed.

(** X20: the only mail the controller ever sends is the verification mail
    of a signup whose body parsed and that stored the new user: it is
    addressed to the email as stored for that user, which is the email of
    the body as the schema's setter leaves it, and carries the token signed
    for the new id. *)
Theorem only_signup_sends_mail r now db m :
  m ∈ w_mail (run (handle_ r now) db) →
  ∃ req_body newId name email pw u,
    r = Signup req_body newId
    ∧ signupSchema_ req_body = inr (name, email, pw)
    ∧ w_db (run (handle_ r now) db) !! newId = Some u
    ∧ u_email u = email_setter schema email
    ∧ m = mkEmail (u_email u) "Verify Your Email"
                  [Plain "Please click <a href="; Plain dquote; Plain (frontend_url cfg);
                   Plain "/verify-email?token=";
                   verification_token_for cfg hashPassword newId pw now;
                   Plain dquote; Plain "> here</a> to verify your email"].
Proof.
  destruct r; simpl.
  - destruct (signup_effects db req_body newId now)
      as (_ & _ & _ & [->|(name & email & pw & Hp & Hu & ->)]).
    + by intros ?%elem_of_nil.
    + intros ->%list_elem_of_singleton.
      by exists req_body, newId, name, email, pw,
                (created hashPassword default_role name (email_setter schema email) pw).
  - destruct (verifyEmail_quiet db req_query now) as (_ & -> & _). by intros ?%elem_of_nil.
  - destruct (login_effects db req_body now) as (-> & _). by intros ?%elem_of_nil.
  - destruct (setup2FA_quiet db req_user base32 otpauth_url) as (_ & -> & _).
    by intros ?%elem_of_nil.
  - destruct (verify2FA_effects db req_body now) as (-> & _). by intros ?%elem_of_nil.
  - destruct (confirm2FA_quiet db req_user req_body now) as (_ & -> & _).
    by intros ?%elem_of_nil.
  - destruct (disable2FA_quiet db req_user) as (_ & -> & _). by intros ?%elem_of_nil.
  - by intros ?%elem_of_nil.
  - destruct (protect_effects db authorization cookies_jwt now) as (_ & -> & _).
    by intros ?%elem_of_nil.
  - destruct (restrictTo_effects db roles req_user) as (_ & -> & _). by intros ?%elem_of_nil.
Qed.

(** X21: every handler answers every request, whatever is thrown on the
    way, and never calls a next handler; the gate does exactly one of the
    two, and the role check never both. *)
Theorem every_request_is_answered r now db :
  let w := run (handle_ r now) db in
  match r with
  | Protect _ _ => is_Some (w_res w) ∧ w_next w = None ∨ w_res w = None ∧ is_Some (w_next w)
  | RestrictTo _ _ => w_res w = None ∨ w_next w = None
  | _ => is_Some (w_res w) ∧ w_next w = None
  end.
Proof.
  destruct r; simpl.
  - by destruct (signup_effects db req_body newId now) as (_ & ? & ? & _).
  - by destruct (verifyEmail_quiet db req_query now) as (_ & _ & ? & ?).
  - by destruct (login_effects db req_body now) as (_ & ? & ? & _).
  - by destruct (setup2FA_quiet db req_user base32 otpauth_url) as (_ & _ & ? & ?).
  - by destruct (verify2FA_effects db req_body now) as (_ & ? & ? & _).
  - by destruct (confirm2FA_quiet db req_user req_body now) as (_ & _ & ? & ?).
  - by destruct (disable2FA_quiet db req_user) as (_ & _ & ? & ?).
  - split; [by eexists|done].
  - by destruct (protect_effects db authorization cookies_jwt now) as (_ & _ & ?).
  - by destruct (restrictTo_effects db roles req_user) as (_ & _ & ?).
Qed.

(** X22: no request removes a stored user or changes a name, an email, a
    password hash or a role, and none turns a verified email back to
    unverified; login, [verify2FA], logout, the gate and the role check
    write nothing at all. *)
Theorem stored_users_are_kept r now db :
  let w := run (handle_ r now) db in
  (∀ i u, db !! i = Some u →
     ∃ u', w_db w !! i = Some u'
           ∧ u_name u' = u_name u ∧ u_email u' = u_email u
           ∧ u_password u' = u_password u ∧ u_role u' = u_role u
           ∧ (u_isEmailVerified u = true → u_isEmailVerified u' = true))
  ∧ match r with
    | Login _ | Verify2FA _ | Logout | Protect _ _ | RestrictTo _ _ => w_db w = db
    | _ => True
    end.
Proof.
  assert (Hins : ∀ (db' : DB) k v v',
             db' = <[k := v']> db → db !! k = Some v →
             u_name v' = u_name v → u_email v' = u_email v →
             u_password v' = u_password v → u_role v' = u_role v →
             (u_isEmailVerified v = true → u_isEmailVerified v' = true) →
             ∀ i u, db !! i = Some u →
               ∃ u', db' !! i = Some u'
                     ∧ u_name u' = u_name u ∧ u_email u' = u_email u
                     ∧ u_password u' = u_password u ∧ u_role u' = u_role u
                     ∧ (u_isEmailVerified u = true → u_isEmailVerified u' = true)).
  { intros db' k v v' -> Hk ? ? ? ? ? i u Hu. rewrite lookup_insert. case_decide.
    - subst i. rewrite Hk in Hu. injection Hu as <-. by exists v'.
    - by exists u. }
  assert (Hid : ∀ (db' : DB), db' = db →
             ∀ i u, db !! i = Some u →
               ∃ u', db' !! i = Some u'
                     ∧ u_name u' = u_name u ∧ u_email u' = u_email u
                     ∧ u_password u' = u_password u ∧ u_role u' = u_role u
                     ∧ (u_isEmailVerified u = true → u_isEmailVerified u' = true)).
  { intros db' -> i u Hu. by exists u. }
  destruct r; simpl.
  - split; [|done].
    destruct (signup_writes schema cfg compact isEmail hashPassword default_role
                db req_body newId now) as [Hw|(n & e & p & Hn & Hw)]; [by apply Hid|].
    intros i u Hu. rewrite Hw, lookup_insert_ne; [by exists u|]. intros <-. congruence.
  - split; [|done].
    destruct (verifyEmail_writes schema cfg compact db req_query now)
      as [Hw|(k & v & Hk & Hw)]; [by apply Hid|by eapply Hins].
  - split; [apply Hid|]; apply login_writes.
  - split; [|done].
    destruct (setup2FA_writes schema db req_user base32 otpauth_url)
      as [Hw|(k & v & Hk & _ & Hw)]; [by apply Hid|by eapply Hins].
  - split; [apply Hid|]; apply verify2FA_writes.
  - split; [|done].
    destruct (confirm2FA_writes schema compact totp_verify db req_user req_body now)
      as [Hw|(k & v & s & Hk & _ & _ & Hw)]; [by apply Hid|by eapply Hins].
  - split; [|done].
    destruct (disable2FA_writes schema db req_user)
      as [Hw|(k & v & Hk & _ & Hw)]; [by apply Hid|by eapply Hins].
  - split; [by apply Hid|done].
  - split; [apply Hid|]; apply protect_writes.
  - split; [apply Hid|]; apply restrictTo_writes.
Qed.

(** ** Stores the controller can reach *)

Abbreviation run_all_ :=
  (run_all schema cfg compact isEmail hashPassword bcrypt_compare default_role totp_verify).

(** Rewriting a stored user without touching the email keeps emails
    unique. *)
Lemma unique_emails_update db i u u' :
  unique_emails db → db !! i = Some u → u_email u' = u_email u →
  unique_emails (<[i := u']> db).
Proof.
  intros Hun Hu He a b x y. rewrite !lookup_insert.
  destruct (decide (i = a)) as [Ha|Ha], (decide (i = b)) as [Hb|Hb].
  - congruence.
  - intros [= <-] Hy Hxy. rewrite He in Hxy. rewrite <- Ha. by apply (Hun i b u y).
  - intros Hx [= <-] Hxy. rewrite He in Hxy. rewrite <- Hb. by apply (Hun a i x u).
  - apply Hun.
Qed.

Lemma unique_emails_step r now db :
  unique_emails db → unique_emails (w_db (run (handle_ r now) db)).
Proof.
  intros Hun. destruct r; simpl.
  - destruct (signup_writes_parsed db req_body newId now)
      as [->|(name & email & pw & _ & Hn & Hfree & ->)]; [done|].
    intros a b x y. rewrite !lookup_insert.
    destruct (decide (newId = a)) as [Ha|Ha], (decide (newId = b)) as [Hb|Hb].
    + congruence.
    + intros [= <-] Hy Hxy. by destruct (Hfree b y).
    + intros Hx [= <-] Hxy. by destruct (Hfree a x).
    + apply Hun.
  - destruct (verifyEmail_writes schema cfg compact db req_query now)
      as [->|(k & v & Hk & ->)]; [done|]. by eapply unique_emails_update.
  - by rewrite login_writes.
  - destruct (setup2FA_writes schema db req_user base32 otpauth_url)
      as [->|(k & v & Hk & _ & ->)]; [done|]. by eapply unique_emails_update.
  - by rewrite verify2FA_writes.
  - destruct (confirm2FA_writes schema compact totp_verify db req_user req_body now)
      as [->|(k & v & s & Hk & _ & _ & ->)]; [done|]. by eapply unique_emails_update.
  - destruct (disable2FA_writes schema db req_user)
      as [->|(k & v & Hk & _ & ->)]; [done|]. by eapply unique_emails_update.
  - done.
  - by rewrite protect_writes.
  - by rewrite restrictTo_writes.
Qed.

(** X23: the only email a request writes is that of the user a signup
    creates, stored as the schema's setter leaves it, and the collection
    refuses it when a stored user has it already (the unique index of the
    data model; the lookup of signup is by the email as typed): starting
    from a store in which emails are unique, as the empty one, every
    sequence of requests leads to a store in which they are. *)
Theorem emails_stay_unique requests db :
  unique_emails db → unique_emails (run_all_ requests db).
Proof.
  revert db. induction requests as [|[r now] requests IH]; intros db Hun; [done|].
  simpl. apply IH. by apply unique_emails_step.
Qed.

Lemma secret_ready_insert db i u :
  secret_ready db →
  (u_twoFactorEnabled u = true → ∃ secret, u_twoFactorSecret u = Some secret ∧ secret ≠ "") →
  secret_ready (<[i := u]> db).
Proof.
  intros Hinv Hu k v. rewrite lookup_insert. case_decide.
  - intros [= <-]. done.
  - apply Hinv.
Qed.

Lemma secret_ready_step r now db :
  secret_ready db → secret_ready (w_db (run (handle_ r now) db)).
Proof.
  intros Hinv. destruct r; simpl.
  - destruct (signup_writes_parsed db req_body newId now)
      as [->|(name & email & pw & _ & _ & _ & ->)]; [done|].
    by apply secret_ready_insert.
  - destruct (verifyEmail_writes schema cfg compact db req_query now)
      as [->|(k & v & Hk & ->)]; [done|].
    apply secret_ready_insert; [done|]. apply (Hinv k v Hk).
  - by rewrite login_writes.
  - destruct (setup2FA_writes schema db req_user base32 otpauth_url)
      as [->|(k & v & Hk & He & ->)]; [done|].
    apply secret_ready_insert; [done|]. simpl. congruence.
  - by rewrite verify2FA_writes.
  - destruct (confirm2FA_writes schema compact totp_verify db req_user req_body now)
      as [->|(k & v & s & Hk & Hs & Hne & ->)]; [done|].
    apply secret_ready_insert; [done|]. simpl. eauto.
  - destruct (disable2FA_writes schema db req_user)
      as [->|(k & v & Hk & _ & ->)]; [done|].
    by apply secret_ready_insert.
  - done.
  - by rewrite protect_writes.
  - by rewrite restrictTo_writes.
Qed.

(** X24: in every store reached by requests from one where users with 2FA
    on have a non-empty secret, as the empty one, they still have: for such
    a user [verify2FA] never answers [Invalid token] for want of a secret,
    it opens the session for every token that verifies and names the user
    and every code right for the secret. *)
Theorem enabled_users_can_step_up requests db :
  secret_ready db →
  let db' := run_all_ requests db in
  secret_ready db'
  ∧ ∀ i u, db' !! i = Some u → u_twoFactorEnabled u = true →
      ∃ secret,
        u_twoFactorSecret u = Some secret
        ∧ ∀ req_body tempToken code c now,
            verify2FA_body req_body = inr (tempToken, code) →
            jwt.verify tempToken (jwt_secret cfg) now = inr c →
            c_id c = Some i →
            totp_verify secret (default JUndefined code) now = true →
            run (verify2FA_ req_body now) db'
            = mkWorld db' (Some (SessionOpened cfg i u now))
                      [session_cookie cfg (session_token cfg i now) now] [] None.
Proof.
  intros Hinv db'.
  assert (Hr : secret_ready db').
  { subst db'. revert db Hinv.
    induction requests as [|[r now] requests IH]; intros db Hinv; [done|].
    simpl. apply IH. by apply secret_ready_step. }
  split; [done|]. intros i u Hu He.
  destruct (Hr i u Hu He) as (secret & Hs & Hne). exists secret. split; [done|].
  intros req_body tempToken code c now Hb Hv Hi Ht. by eapply verify2FA_accepts.
Qed.

(** ** What it takes to get through *)

(** X25: the gate calls the next handler only for a token signed with the
    configured, non-empty secret over the claims it carries, not yet
    expired, and naming a stored user; [req.user] is then that user as
    stored now, without what the schema keeps out of default reads, and no
    response is sent. *)
Theorem gate_passes_only_sound_tokens db authorization cookies_jwt now d :
  w_next (run (protect_ authorization cookies_jwt now) db) = Some d →
  ∃ j i u,
    request_token compact authorization cookies_jwt = Some (Compact j)
    ∧ jwt_secret cfg ≠ "" ∧ sig_key j = jwt_secret cfg ∧ sig_claims j = jwt_claims j
    ∧ (∀ exp, c_exp (jwt_claims j) = Some exp → now `div` 1000 < exp)
    ∧ c_id (jwt_claims j) = Some i ∧ db !! i = Some u
    ∧ d = load schema default_select i u
    ∧ (select_password schema = false → d_password d = None)
    ∧ (select_twoFactorSecret schema = false → d_twoFactorSecret d = None)
    ∧ w_res (run (protect_ authorization cookies_jwt now) db) = None.
Proof.
  intros (t & c & i & u & Ht & Hv & Hi & Hu & -> & Hr)%protect_next.
  apply verify_inr in Hv as (j & [= ->] & Hk & Hs & Hc & -> & He).
  exists j, i, u. split_and!; try done.
  - unfold load, selected. simpl. by intros ->.
  - unfold load, selected. simpl. by intros ->.
Qed.


(** X27: [verify2FA] answers 200, and sets a cookie, only when the token of
    the body verifies under the secret, the user it names has a stored,
    non-empty secret, and the code is right for that secret at this clock. *)
Theorem verify2FA_needs_token_and_code db req_body now :
  let w := run (verify2FA_ req_body now) db in
  status <$> w_res w = Some 200 ∨ w_cookies w ≠ [] →
  ∃ tempToken code c i u secret,
    verify2FA_body req_body = inr (tempToken, code)
    ∧ jwt.verify tempToken (jwt_secret cfg) now = inr c
    ∧ c_id c = Some i ∧ db !! i = Some u
    ∧ u_twoFactorSecret u = Some secret ∧ secret ≠ ""
    ∧ totp_verify secret (default JUndefined code) now = true.
Proof.
  unfold verify2FA; exec.
  destruct (verify2FA_body req_body) as [e|[tempToken code]]; simpl; [intros [?|?]; done|].
  destruct (jwt.verify tempToken _ now) as [e|c] eqn:Hv; simpl; [intros [?|?]; done|].
  destruct (c_id c) as [i|] eqn:Hi; [|intros [?|?]; done].
  rewrite findById_lookup.
  destruct (db !! i) as [u|] eqn:Hu; simpl;
    [|destruct (valid_id schema i); intros [?|?]; done].
  rewrite orb_true_r.
  destruct (u_twoFactorSecret u) as [secret|] eqn:Hs; simpl; [|intros [?|?]; done].
  case_bool_decide as Hne; simpl; [intros [?|?]; done|].
  destruct (totp_verify secret _ now) eqn:Ht; simpl; [|intros [?|?]; done].
  intros _. by exists tempToken, code, c, i, u, secret.
Qed.

(** X28: [verifyEmail] answers 200 only for a token that names a stored,
    not yet verified user and verifies under the secret followed by what
    the handler reads as that user's password; it then marks that user
    verified and writes nothing else. *)
Theorem verifyEmail_needs_the_token db req_query now :
  let w := run (verifyEmail_ req_query now) db in
  status <$> w_res w = Some 200 →
  ∃ j i u,
    verifyEmailSchema compact req_query = inr (Compact j)
    ∧ c_id (jwt_claims j) = Some i ∧ db !! i = Some u
    ∧ jwt.verify (Some (JStr (Compact j)))
                 (js_concat (jwt_secret cfg) (d_password (load schema default_select i u))) now
      = inr (jwt_claims j)
    ∧ u_isEmailVerified u = false
    ∧ w_db w = <[i := with_isEmailVerified true u]> db.
Proof.
  unfold verifyEmail; exec.
  destruct (verifyEmailSchema compact req_query) as [e|token] eqn:Hq; simpl; [done|].
  destruct token as [s|j]; simpl; [done|].
  destruct (c_id (jwt_claims j)) as [i|] eqn:Hi; simpl; [|done].
  case_bool_decide; simpl; [done|].
  rewrite findById_lookup.
  destruct (db !! i) as [u|] eqn:Hu; simpl; [|by destruct (valid_id schema i)].
  destruct (jwt.verify _ _ now) as [e|c] eqn:Hv; simpl; [done|].
  destruct (u_isEmailVerified u) eqn:Hver; simpl; [done|].
  intros _. exists j, i, u.
  pose proof (verify_inr _ _ _ _ Hv) as (j' & [= <-] & _ & _ & _ & -> & _).
  split_and!; try done. by eapply save_insert.
Qed.

(** X29: with [JWT_SECRET] unset the secret is the empty string, under
    which nothing is signed and nothing verifies: the gate lets no request
    through, and neither login nor [verify2FA] ever sets a cookie. *)
Theorem unset_secret_fails_closed db now :
  jwt_secret cfg = "" →
  (∀ authorization cookies_jwt,
     w_next (run (protect_ authorization cookies_jwt now) db) = None)
  ∧ (∀ req_body, w_cookies (run (login_ req_body now) db) = [])
  ∧ (∀ req_body, w_cookies (run (verify2FA_ req_body now) db) = []).
Proof.
  intros Hk. split_and!.
  - intros authorization cookies_jwt.
    destruct (w_next _) as [d|] eqn:Hn; [|done].
    apply protect_next in Hn as (t & c & i & u & _ & Hv & _).
    apply verify_inr in Hv as (j & _ & Hne & _). done.
  - intros req_body. unfold login; exec. branches; try done.
    match goal with H : signToken _ _ _ = inr _ |- _ => apply sign_inr in H as [Hne _] end.
    done.
  - intros req_body. unfold verify2FA; exec. branches; try done.
    match goal with H : signToken _ _ _ = inr _ |- _ => apply sign_inr in H as [Hne _] end.
    done.
Qed.


(** The 2FA invariant survives every request. *)
Lemma two_factor_invariant_step r now db :
  two_factor_invariant db → two_factor_invariant (w_db (run (handle_ r now) db)).
Proof.
  intros Hinv. destruct r; simpl.
  - destruct (signup_writes_parsed db req_body newId now)
      as [->|(name & email & pw & _ & _ & _ & ->)]; [done|].
    by apply invariant_insert.
  - destruct (verifyEmail_writes schema cfg compact db req_query now)
      as [->|(k & v & Hk & ->)]; [done|].
    apply invariant_insert; [done|]. apply (Hinv k v Hk).
  - by rewrite login_writes.
  - destruct (setup2FA_writes schema db req_user base32 otpauth_url)
      as [->|(k & v & Hk & He & ->)]; [done|].
    apply invariant_insert; [done|]. simpl. eauto.
  - by rewrite verify2FA_writes.
  - destruct (confirm2FA_writes schema compact totp_verify db req_user req_body now)
      as [->|(k & v & s & Hk & Hs & Hne & ->)]; [done|].
    apply invariant_insert; [done|]. simpl. rewrite Hs. eauto.
  - destruct (disable2FA_writes schema db req_user)
      as [->|(k & v & Hk & _ & ->)]; [done|].
    by apply invariant_insert.
  - done.
  - by rewrite protect_writes.
  - by rewrite restrictTo_writes.
Qed.

(** X30: every request persists at most one write, and the store it leaves
    is the one it found or the one that write left: no handler saves a user
    in two steps, so that no store is ever persisted between two changes
    that belong together; and every store persisted keeps the 2FA
    invariant when the store found did. *)
Theorem requests_write_at_most_once r now db :
  let w := run (handle_ r now) db in
  (w_writes w = [] ∧ w_db w = db ∨ w_writes w = [w_db w])
  ∧ (two_factor_invariant db → Forall two_factor_invariant (w_writes w)).
Proof.
  intros w.
  assert (H : w_writes w = [] ∧ w_db w = db ∨ w_writes w = [w_db w]).
  { subst w. destruct r; simpl;
      unfold signup, verifyEmail, login, setup2FA, verify2FA, confirm2FA, disable2FA, logout,
        protect, restrictTo, User_create; exec; branches; auto. }
  split; [done|]. intros Hinv.
  destruct H as [[-> _]| ->]; [done|].
  apply Forall_singleton. by apply two_factor_invariant_step.
Qed.
End Further.

(** ** The further properties at the scenario *)

Lemma signup_invalid_input_witness :
  status <$> w_res (run (ex_signup short_password_body "66a1f0c2b3d4e5f6a7b8c9d2" 1000000) ann_plain) = Some 400
  ∧ w_db (run (ex_signup short_password_body "66a1f0c2b3d4e5f6a7b8c9d2" 1000000) ann_plain) = ann_plain.
Proof.
  destruct (signup_invalid_input userSchema ex_cfg ex_compact ex_isEmail ex_hash "user"
              ann_plain short_password_body "66a1f0c2b3d4e5f6a7b8c9d2" 1000000) as (issues & _ & H).
  - right. right. by vm_compute.
  - unfold ex_signup. by rewrite H.
Defined.

Lemma signup_duplicate_email_witness :
  status <$> w_res (run (ex_signup ann_body "66a1f0c2b3d4e5f6a7b8c9d2" 1000000) ann_plain) = Some 400
  ∧ w_db (run (ex_signup ann_body "66a1f0c2b3d4e5f6a7b8c9d2" 1000000) ann_plain) = ann_plain.
Proof.
  unfold ex_signup.
  rewrite (signup_duplicate_email userSchema ex_cfg ex_compact ex_isEmail ex_hash "user"
             ann_plain ann_body "66a1f0c2b3d4e5f6a7b8c9d2" 1000000 "Ann" "a@x.com" "longpass1" "66a1f0c2b3d4e5f6a7b8c9d1"
             (ann true false None)); by vm_compute.
Defined.

Lemma ann_plain_has_only_ann email :
  email ≠ "a@x.com" → ∀ i u, ann_plain !! i = Some u → u_email u ≠ email.
Proof.
  unfold ann_plain. intros He i u [<- <-]%lookup_singleton_Some. simpl. congruence.
Qed.

Lemma signup_creates_unverified_user_witness :
  w_db (run (ex_signup bob_caps_body "66a1f0c2b3d4e5f6a7b8c9d2" 1000000) ann_plain)
  = <["66a1f0c2b3d4e5f6a7b8c9d2" := mkUser "Bob" "bob@x.com" "$2b$hunter2hunter2" false "user" false None]> ann_plain
  ∧ em_email <$> w_mail (run (ex_signup bob_caps_body "66a1f0c2b3d4e5f6a7b8c9d2" 1000000) ann_plain) = ["bob@x.com"]
  ∧ w_writes (run (ex_signup bob_caps_body "66a1f0c2b3d4e5f6a7b8c9d2" 1000000) ann_plain)
    = [w_db (run (ex_signup bob_caps_body "66a1f0c2b3d4e5f6a7b8c9d2" 1000000) ann_plain)]
  ∧ status <$> w_res (run (ex_signup bob_caps_body "66a1f0c2b3d4e5f6a7b8c9d2" 1000000) ann_plain) = Some 201.
Proof.
  unfold ex_signup.
  rewrite (signup_creates_unverified_user userSchema ex_cfg ex_compact ex_isEmail ex_hash
             "user" ann_plain bob_caps_body "66a1f0c2b3d4e5f6a7b8c9d2" 1000000 "Bob" "Bob@X.com" "hunter2hunter2");
    [done|by vm_compute|by apply (ann_plain_has_only_ann "Bob@X.com")
    |by apply (ann_plain_has_only_ann "bob@x.com")|by vm_compute|by vm_compute].
Defined.

Lemma signup_adds_one_plain_user_witness :
  w_db (run (ex_signup bob_body "66a1f0c2b3d4e5f6a7b8c9d2" 1000000) ann_plain) !! "66a1f0c2b3d4e5f6a7b8c9d1" = Some (ann true false None).
Proof.
  destruct (signup_adds_one_plain_user userSchema ex_cfg ex_compact ex_isEmail ex_hash "user"
              ann_plain bob_body "66a1f0c2b3d4e5f6a7b8c9d2" 1000000) as [H _].
  apply H. by vm_compute.
Defined.

Lemma login_unverified_refused_witness :
  run (ex_login ann_login 2000000) ann_unverified
  = mkWorld ann_unverified
            (Some (mkResponse 401 (JObj [("message", jtext "Please verify your email to login")])))
            [] [] None.
Proof.
  apply (login_unverified_refused userSchema ex_cfg ex_compact ex_isEmail ex_compare
           ann_unverified ann_login "a@x.com" "longpass1" "66a1f0c2b3d4e5f6a7b8c9d1" (ann false false None) 2000000);
    by vm_compute.
Defined.

Lemma login_opens_session_witness :
  w_cookies (run (ex_login ann_login 2000000) ann_plain)
  = [mkCookie "jwt" ann_session 606800000 true false].
Proof.
  unfold ex_login.
  rewrite (login_opens_session userSchema ex_cfg ex_compact ex_isEmail ex_compare
             ann_plain ann_login "a@x.com" "longpass1" "66a1f0c2b3d4e5f6a7b8c9d1" (ann true false None) 2000000);
    by vm_compute.
Defined.

Lemma login_session_lasts_until_expiry_witness :
  run (ex_protect None (Some ann_session) 2100000) ann_plain
  = mkWorld ann_plain None [] [] (Some ann_plain_doc)
  ∧ run (ex_protect None (Some ann_session) 5600000) ann_plain
    = mkWorld ann_plain (Some (mkResponse 401 (JObj [("message", jtext "Invalid token")])))
              [] [] None.
Proof.
  destruct (login_session_lasts_until_expiry userSchema ex_cfg ex_compact ex_isEmail ex_compare
              ann_plain ann_login "a@x.com" "longpass1" "66a1f0c2b3d4e5f6a7b8c9d1" (ann true false None) 2000000)
    as (c & Hc & H); [by vm_compute..|].
  vm_compute in Hc. injection Hc as <-.
  split.
  - apply (H ann_plain (ann true false None) 2100000); by vm_compute.
  - apply (H ann_plain (ann true false None) 5600000); by vm_compute.
Defined.

Lemma login_invalid_input_witness :
  status <$> w_res (run (ex_login short_login_body 2000000) ann_plain) = Some 400.
Proof.
  destruct (login_invalid_input userSchema ex_cfg ex_compact ex_isEmail ex_compare
              ann_plain short_login_body 2000000) as (issues & _ & H).
  - right. by vm_compute.
  - unfold ex_login. by rewrite H.
Defined.

Lemma logout_clears_the_cookie_only_witness :
  run (ex_protect None (Some (Plain "")) 2100000) ann_plain
  = mkWorld ann_plain (Some NotLoggedIn) [] [] None.
Proof.
  destruct (logout_clears_the_cookie_only userSchema ex_cfg ex_compact ann_plain)
    as (_ & H & _).
  apply (H (mkCookie "jwt" (Plain "") 0 true false)).
  simpl. apply list_elem_of_singleton. reflexivity.
Defined.

Lemma restrictTo_uses_stored_role_witness :
  run (restrictTo ["admin"] (Some ann_plain_doc)) ann_plain
  = mkWorld ann_plain
            (Some (mkResponse 403
                     (JObj [("message",
                             jtext "You do not have permission to perform this action")])))
            [] [] None.
Proof.
  destruct (restrictTo_uses_stored_role userSchema ex_cfg ex_compact ann_plain
              (Some [Plain "Bearer"; ann_session]) None 2100000 ann_plain_doc ["admin"])
    as (i & u & Hu & Hi & H); [by vm_compute|].
  simpl in Hi. subst i. vm_compute in Hu. injection Hu as <-.
  rewrite H. by vm_compute.
Defined.

Lemma bearer_header_shadows_cookie_witness :
  run (ex_protect (Some [Plain "Bearer"]) (Some ann_session) 2100000) ann_plain
  = mkWorld ann_plain (Some NotLoggedIn) [] [] None.
Proof.
  destruct (bearer_header_shadows_cookie userSchema ex_cfg ex_compact ann_plain
              (Plain "Bearer") [] (Some ann_session) 2100000) as [H _].
  destruct H as [_ H]; [by vm_compute|]. by apply H.
Defined.

Lemma enrolment_runs_once_witness :
  run (ex_confirm2FA (Some ann_plain_doc) confirm_body 5000000)
      (w_db (run (ex_setup2FA (Some ann_plain_doc) ann_secret "otpauth://totp/Ann") ann_plain))
  = mkWritten (<["66a1f0c2b3d4e5f6a7b8c9d1" := ann true true (Some ann_secret)]> ann_plain)
              (Some TwoFactorEnabled) [] [] None
              [<["66a1f0c2b3d4e5f6a7b8c9d1" := ann true true (Some ann_secret)]> ann_plain].
Proof.
  destruct (enrolment_runs_once userSchema ex_compact ex_totp ann_plain ann_plain_doc
              (ann true false None) ann_secret "otpauth://totp/Ann" confirm_body
              (Plain "x") (Plain "123456") 5000000) as (_ & H & _); [by vm_compute..|].
  exact H.
Defined.

Lemma two_step_login_witness :
  run (ex_verify2FA (JObj [("tempToken", JStr ann_step_up); ("code", jtext "123456")]) 2100000)
      ann_enabled
  = mkWorld ann_enabled
            (Some (SessionOpened ex_cfg "66a1f0c2b3d4e5f6a7b8c9d1" (ann true true (Some ann_secret)) 2100000))
            [session_cookie ex_cfg (session_token ex_cfg "66a1f0c2b3d4e5f6a7b8c9d1" 2100000) 2100000] [] None
  ∧ run (ex_verify2FA (JObj [("tempToken", JStr ann_step_up); ("code", jtext "123456")]) 2300000)
        ann_enabled
    = mkWorld ann_enabled
              (Some (mkResponse 401 (JObj [("message", jtext "Invalid or expired token")])))
              [] [] None.
Proof.
  destruct (two_step_login userSchema ex_cfg ex_compact ex_isEmail ex_compare ex_totp
              ann_enabled ann_login "a@x.com" "longpass1" "66a1f0c2b3d4e5f6a7b8c9d1"
              (ann true true (Some ann_secret)) ann_secret 2000000)
    as (t & Ht & H); [by vm_compute..|].
  vm_compute in Ht. injection Ht as <-.
  split.
  - apply (H (jtext "123456") 2100000); by vm_compute.
  - apply (H (jtext "123456") 2300000); by vm_compute.
Defined.

Lemma verify2FA_refusals_witness :
  run (ex_verify2FA JUndefined 2100000) ann_enabled
  = mkWorld ann_enabled
            (Some (mkResponse 401 (JObj [("message", jtext "Invalid or expired token")])))
            [] [] None.
Proof.
  destruct (verify2FA_refusals userSchema ex_cfg ex_totp ann_enabled 2100000) as [H _].
  apply H. by left.
Defined.

Lemma confirm2FA_invalid_code_witness :
  status <$> w_res (run (ex_confirm2FA (Some ann_doc) short_code_body 5000000) ann_pending)
  = Some 400
  ∧ w_db (run (ex_confirm2FA (Some ann_doc) short_code_body 5000000) ann_pending) = ann_pending.
Proof.
  destruct (confirm2FA_invalid_code userSchema ex_compact ex_totp ann_pending (Some ann_doc)
              short_code_body 5000000) as (issues & _ & H); [by vm_compute|].
  unfold ex_confirm2FA. by rewrite H.
Defined.

Lemma disable2FA_keeps_pending_secret_witness :
  run (ex_disable2FA (Some ann_doc)) ann_pending
  = mkWorld ann_pending (Some (mkResponse 400 (JObj [("message", jtext "2FA not enabled")])))
            [] [] None.
Proof.
  destruct (disable2FA_keeps_pending_secret userSchema ex_cfg ex_totp ann_pending ann_doc
              (ann true false (Some ann_secret)) ann_secret) as [H _]; [by vm_compute..|].
  exact H.
Defined.

Lemma handlers_without_their_user_witness :
  run (ex_setup2FA (Some ann_doc) ann_secret "otpauth://totp/Ann") ∅
  = mkWorld ∅ (Some (mkResponse 404 (JObj [("message", jtext "User not found")]))) [] [] None.
Proof.
  destruct (handlers_without_their_user userSchema ex_compact ex_totp ∅ ann_secret
              "otpauth://totp/Ann" confirm_body (Plain "x") "123456" 5000000)
    as (H & _); [by vm_compute|].
  specialize (H ann_doc).
  assert (Hv : valid_id userSchema (d_id ann_doc) = true) by (by vm_compute).
  rewrite Hv in H. destruct H as (Hs & _); [by vm_compute|]. exact Hs.
Defined.


Lemma only_session_cookies_witness :
  ck_name (session_cookie ex_cfg ann_session 2000000) = "jwt"
  ∧ ck_httpOnly (session_cookie ex_cfg ann_session 2000000) = true.
Proof.
  destruct (only_session_cookies userSchema ex_cfg ex_compact ex_isEmail ex_hash ex_compare
              "user" ex_totp (Login ann_login) 2000000 ann_plain
              (session_cookie ex_cfg ann_session 2000000)) as (Hn & Hh & _).
  - assert (E : w_cookies (run (ex_handle (Login ann_login) 2000000) ann_plain)
                = [session_cookie ex_cfg ann_session 2000000]) by (by vm_compute).
    unfold ex_handle in E. rewrite E. apply list_elem_of_singleton. reflexivity.
  - by split.
Defined.

Lemma only_signup_sends_mail_witness :
  ∃ req_body newId name email pw u,
    Signup bob_caps_body "66a1f0c2b3d4e5f6a7b8c9d2" = Signup req_body newId
    ∧ signupSchema ex_compact ex_isEmail req_body = inr (name, email, pw)
    ∧ w_db (run (ex_handle (Signup bob_caps_body "66a1f0c2b3d4e5f6a7b8c9d2") 1000000) ann_plain) !! newId = Some u
    ∧ u_email u = toLowerCase email
    ∧ verification_mail ex_cfg "bob@x.com"
        (verification_token_for ex_cfg ex_hash "66a1f0c2b3d4e5f6a7b8c9d2" "hunter2hunter2" 1000000)
      = mkEmail (u_email u) "Verify Your Email"
                [Plain "Please click <a href="; Plain dquote; Plain (frontend_url ex_cfg);
                 Plain "/verify-email?token=";
                 verification_token_for ex_cfg ex_hash newId pw 1000000;
                 Plain dquote; Plain "> here</a> to verify your email"].
Proof.
  apply (only_signup_sends_mail userSchema ex_cfg ex_compact ex_isEmail ex_hash ex_compare
           "user" ex_totp (Signup bob_caps_body "66a1f0c2b3d4e5f6a7b8c9d2") 1000000 ann_plain).
  assert (E : w_mail (run (ex_handle (Signup bob_caps_body "66a1f0c2b3d4e5f6a7b8c9d2") 1000000) ann_plain)
              = [verification_mail ex_cfg "bob@x.com"
                   (verification_token_for ex_cfg ex_hash "66a1f0c2b3d4e5f6a7b8c9d2" "hunter2hunter2" 1000000)])
    by (by vm_compute).
  unfold ex_handle in E. rewrite E. apply list_elem_of_singleton. reflexivity.
Defined.

Lemma stored_users_are_kept_witness :
  ∃ u', w_db (run (ex_handle (Disable2FA (Some ann_doc)) 0) ann_enabled) !! "66a1f0c2b3d4e5f6a7b8c9d1" = Some u'
        ∧ u_password u' = "$2b$longpass1" ∧ u_email u' = "a@x.com".
Proof.
  destruct (stored_users_are_kept userSchema ex_cfg ex_compact ex_isEmail ex_hash ex_compare
              "user" ex_totp (Disable2FA (Some ann_doc)) 0 ann_enabled) as [H _].
  destruct (H "66a1f0c2b3d4e5f6a7b8c9d1" (ann true true (Some ann_secret))) as (u' & Hu & _ & He & Hp & _);
    [by vm_compute|].
  exists u'. by split_and!.
Defined.

Lemma empty_store_unique_emails : unique_emails ∅.
Proof. intros i j u v H. by rewrite lookup_empty in H. Qed.

Lemma emails_stay_unique_witness :
  unique_emails (ex_run_all [(Signup ann_body "66a1f0c2b3d4e5f6a7b8c9d1", 1000000); (Signup ann_body "66a1f0c2b3d4e5f6a7b8c9d2", 1500000);
                             (Signup bob_body "66a1f0c2b3d4e5f6a7b8c9d3", 1600000)] ∅).
Proof.
  apply (emails_stay_unique userSchema ex_cfg ex_compact ex_isEmail ex_hash ex_compare
           "user" ex_totp). exact empty_store_unique_emails.
Defined.

Lemma requests_write_at_most_once_witness :
  w_writes (run (ex_handle (Disable2FA (Some ann_doc)) 0) ann_enabled)
  = [w_db (run (ex_handle (Disable2FA (Some ann_doc)) 0) ann_enabled)]
  ∧ Forall two_factor_invariant
           (w_writes (run (ex_handle (Disable2FA (Some ann_doc)) 0) ann_enabled)).
Proof.
  destruct (requests_write_at_most_once userSchema ex_cfg ex_compact ex_isEmail ex_hash
              ex_compare "user" ex_totp (Disable2FA (Some ann_doc)) 0 ann_enabled) as [H1 H2].
  split; [|exact (H2 ann_enabled_invariant)].
  destruct H1 as [[H _]|H]; [by vm_compute in H|exact H].
Defined.

Lemma empty_store_secret_ready : secret_ready ∅.
Proof. intros i u H. by rewrite lookup_empty in H. Qed.

Lemma enabled_users_can_step_up_witness :
  secret_ready (ex_run_all [(Signup ann_body "66a1f0c2b3d4e5f6a7b8c9d1", 1000000);
                            (Setup2FA (Some ann_plain_doc) ann_secret "otpauth://totp/Ann", 2000000);
                            (Confirm2FA (Some ann_plain_doc) confirm_body, 2000500)] ∅).
Proof.
  destruct (enabled_users_can_step_up userSchema ex_cfg ex_compact ex_isEmail ex_hash ex_compare
              "user" ex_totp
              [(Signup ann_body "66a1f0c2b3d4e5f6a7b8c9d1", 1000000);
               (Setup2FA (Some ann_plain_doc) ann_secret "otpauth://totp/Ann", 2000000);
               (Confirm2FA (Some ann_plain_doc) confirm_body, 2000500)] ∅
              empty_store_secret_ready) as [H _].
  exact H.
Defined.

Lemma gate_passes_only_sound_tokens_witness :
  ∃ j, request_token ex_compact (Some [Plain "Bearer"; ann_session]) None = Some (Compact j)
       ∧ sig_key j = "s3cret" ∧ d_password ann_plain_doc = None.
Proof.
  destruct (gate_passes_only_sound_tokens userSchema ex_cfg ex_compact ann_plain
              (Some [Plain "Bearer"; ann_session]) None 2100000 ann_plain_doc)
    as (j & i & u & Ht & _ & Hk & _ & _ & _ & _ & _ & Hp & _); [by vm_compute|].
  exists j. split_and!; [exact Ht|exact Hk|by apply Hp].
Defined.


Lemma verify2FA_needs_token_and_code_witness :
  ∃ tempToken code c i u secret,
    verify2FA_body (JObj [("tempToken", JStr ann_step_up); ("code", jtext "123456")])
    = inr (tempToken, code)
    ∧ jwt.verify tempToken (jwt_secret ex_cfg) 2100000 = inr c
    ∧ c_id c = Some i ∧ ann_enabled !! i = Some u
    ∧ u_twoFactorSecret u = Some secret ∧ secret ≠ ""
    ∧ ex_totp secret (default JUndefined code) 2100000 = true.
Proof.
  apply (verify2FA_needs_token_and_code userSchema ex_cfg ex_totp ann_enabled
           (JObj [("tempToken", JStr ann_step_up); ("code", jtext "123456")]) 2100000).
  left. by vm_compute.
Defined.

Lemma verifyEmail_needs_the_token_witness :
  ∃ j i u,
    verifyEmailSchema ex_compact (JObj [("token", JStr ann_token)]) = inr (Compact j)
    ∧ c_id (jwt_claims j) = Some i ∧ w_db ann_signed_up !! i = Some u
    ∧ jwt.verify (Some (JStr (Compact j)))
                 (js_concat (jwt_secret ex_cfg) (d_password (load openSchema default_select i u)))
                 1001000
      = inr (jwt_claims j)
    ∧ u_isEmailVerified u = false
    ∧ w_db (run (verifyEmail openSchema ex_cfg ex_compact (JObj [("token", JStr ann_token)])
                   1001000) (w_db ann_signed_up))
      = <[i := with_isEmailVerified true u]> (w_db ann_signed_up).
Proof.
  apply (verifyEmail_needs_the_token openSchema ex_cfg ex_compact (w_db ann_signed_up)
           (JObj [("token", JStr ann_token)]) 1001000).
  by vm_compute.
Defined.

Lemma unset_secret_fails_closed_witness :
  w_next (run (protect userSchema ex_cfg_unset ex_compact
                 (Some [Plain "Bearer"; ann_session]) None 2100000) ann_plain) = None
  ∧ w_cookies (run (login userSchema ex_cfg_unset ex_compact ex_isEmail ex_compare
                      ann_login 2000000) ann_plain) = [].
Proof.
  destruct (unset_secret_fails_closed userSchema ex_cfg_unset ex_compact ex_isEmail ex_compare
              ex_totp ann_plain 2100000) as (Hg & _); [done|].
  destruct (unset_secret_fails_closed userSchema ex_cfg_unset ex_compact ex_isEmail ex_compare
              ex_totp ann_plain 2000000) as (_ & Hl & _); [done|].
  split; [apply Hg|apply Hl].
Defined.
